(** * gd2gs: resolution of the configuration document (src/gd2gs/config.py)

    A shallow embedding of [config.py]: the values that [yaml.safe_load]
    hands to [Config.__init__], the Python built-ins the module applies to
    them, the diagnostics of [gd2gs.logger], and the resolvers
    [get_input], [get_config], [get_config_with_default],
    [get_source_config], [get_column_config], [get_sheet_config],
    [Config.config_bugzilla], [Config.config_jira], [Config.config_gsheet]
    and [Config.__init__]. *)

From Stdlib Require Import String Ascii List ZArith Bool Lia.
From Stdlib Require Import Floats.SpecFloat.
Import ListNotations.
Open Scope string_scope.
Open Scope Z_scope.
Set Warnings "-register-all".

(** ** Loaded values *)

Module Py.

(** A value produced by [yaml.safe_load].  A mapping is kept as the list of
    its entries in declaration order; its keys are strings, as is every key
    that [config.py] looks up.  A Python dict holds each key once, see
    [dict_wf]. *)
Inductive value : Type :=
| VNone
| VBool (b : bool)
| VInt (z : Z)
| VFloat (f : spec_float)
| VStr (s : string)
| VList (l : list value)
| VDict (d : list (string * value)).

(** Exceptions that the built-ins used by [config.py] raise. *)
Inductive exn : Type :=
| KeyError | TypeError | ValueError | OverflowError
| AttributeError | UnboundLocalError.

(** Python dicts as association lists in insertion order. *)
Section Dict.
Context {A : Type}.

Definition dict := list (string * A).

Fixpoint dict_get (d : dict) (k : string) : option A :=
  match d with
  | [] => None
  | (k', v) :: d' => if String.eqb k k' then Some v else dict_get d' k
  end.

Definition dict_mem (d : dict) (k : string) : bool :=
  match dict_get d k with Some _ => true | None => false end.

(** [d[k] = v]: an existing key keeps its place, a new one goes last. *)
Fixpoint dict_set (d : dict) (k : string) (v : A) : dict :=
  match d with
  | [] => [(k, v)]
  | (k', v') :: d' =>
      if String.eqb k k' then (k', v) :: d' else (k', v') :: dict_set d' k v
  end.

Definition dict_keys (d : dict) : list string := map fst d.

Definition dict_wf (d : dict) : Prop := NoDup (dict_keys d).

Definition dict_empty (d : dict) : bool :=
  match d with [] => true | _ => false end.
End Dict.
Arguments dict : clear implicits.

(** [isinstance(v, dict)] and [isinstance(v, str)]. *)
Definition is_dict (v : value) : bool :=
  match v with VDict _ => true | _ => false end.

Definition is_str (v : value) : bool :=
  match v with VStr _ => true | _ => false end.

Fixpoint is_prefix (p s : string) : bool :=
  match p, s with
  | EmptyString, _ => true
  | String a p', String b s' => Ascii.eqb a b && is_prefix p' s'
  | String _ _, EmptyString => false
  end.

Fixpoint is_substring (p s : string) : bool :=
  is_prefix p s ||
  match s with
  | EmptyString => false
  | String _ s' => is_substring p s'
  end.

Definition is_the_str (k : string) (v : value) : bool :=
  match v with VStr s => String.eqb k s | _ => false end.

(** [k in v] for a string [k]: key membership on a mapping, substring test
    on a string, element test on a sequence, [TypeError] elsewhere. *)
Definition contains (k : string) (v : value) : exn + bool :=
  match v with
  | VDict d => inr (dict_mem d k)
  | VStr s => inr (is_substring k s)
  | VList l => inr (existsb (is_the_str k) l)
  | VNone | VBool _ | VInt _ | VFloat _ => inl TypeError
  end.

(** [v[k]] for a string [k]. *)
Definition getitem (v : value) (k : string) : exn + value :=
  match v with
  | VDict d => match dict_get d k with Some x => inr x | None => inl KeyError end
  | _ => inl TypeError
  end.

(** [v[None]]: what [get_input] evaluates when no tracker key was found.
    [None] is never a key of a loaded mapping with string keys. *)
Definition getitem_none (v : value) : exn + value :=
  match v with
  | VDict _ => inl KeyError
  | _ => inl TypeError
  end.

(** [v.items()] exists on mappings only. *)
Definition items (v : value) : exn + list (string * value) :=
  match v with
  | VDict d => inr d
  | _ => inl AttributeError
  end.

Fixpoint chars (s : string) : list value :=
  match s with
  | EmptyString => []
  | String a s' => VStr (String a EmptyString) :: chars s'
  end.

(** [for x in v]: the elements of a sequence, the keys of a mapping, the
    characters of a string. *)
Definition iter (v : value) : exn + list value :=
  match v with
  | VList l => inr l
  | VDict d => inr (map (fun kv => VStr (fst kv)) d)
  | VStr s => inr (chars s)
  | VNone | VBool _ | VInt _ | VFloat _ => inl TypeError
  end.

(** [s + v] with [s] a string: defined for a string [v] only. *)
Definition str_add (s : string) (v : value) : exn + string :=
  match v with
  | VStr t => inr (s ++ t)%string
  | _ => inl TypeError
  end.

(** *** [int()] *)

Definition is_space (a : ascii) : bool :=
  let n := Z.of_nat (nat_of_ascii a) in
  ((9 <=? n) && (n <=? 13)) || ((28 <=? n) && (n <=? 32)).

Definition digit_of (a : ascii) : option Z :=
  let n := Z.of_nat (nat_of_ascii a) in
  if (48 <=? n) && (n <=? 57) then Some (n - 48) else None.

Fixpoint lstrip (s : string) : string :=
  match s with
  | String a s' => if is_space a then lstrip s' else s
  | EmptyString => EmptyString
  end.

Fixpoint all_space (s : string) : bool :=
  match s with
  | EmptyString => true
  | String a s' => is_space a && all_space s'
  end.

(** Decimal digits with single underscores between them, then optional
    trailing white space.  [after_digit] tells whether the previous
    character was a digit. *)
Fixpoint digits (s : string) (acc : Z) (after_digit : bool) : option Z :=
  match s with
  | EmptyString => if after_digit then Some acc else None
  | String a s' =>
      match digit_of a with
      | Some d => digits s' (10 * acc + d) true
      | None =>
          if after_digit then
            if Ascii.eqb a "_"%char then
              match s' with
              | String b _ =>
                  match digit_of b with
                  | Some _ => digits s' acc false
                  | None => None
                  end
              | EmptyString => None
              end
            else if all_space s then Some acc else None
          else None
      end
  end.

Definition int_of_str (s : string) : option Z :=
  match lstrip s with
  | String "-"%char s' => option_map Z.opp (digits s' 0 false)
  | String "+"%char s' => digits s' 0 false
  | s' => digits s' 0 false
  end.

(** Truncation of a float toward zero. *)
Definition int_of_float (f : spec_float) : exn + Z :=
  match f with
  | S754_zero _ => inr 0
  | S754_infinity _ => inl OverflowError
  | S754_nan => inl ValueError
  | S754_finite s m e =>
      let mag := if 0 <=? e then Z.pos m * 2 ^ e else Z.pos m / 2 ^ (- e) in
      inr (if s then - mag else mag)
  end.

Definition int (v : value) : exn + Z :=
  match v with
  | VInt z => inr z
  | VBool b => inr (if b then 1 else 0)
  | VFloat f => int_of_float f
  | VStr s => match int_of_str s with Some z => inr z | None => inl ValueError end
  | VNone | VList _ | VDict _ => inl TypeError
  end.

End Py.
Import Py.

(** ** Diagnostics and control *)

(** How a run stops other than by returning. *)
Inductive halt : Type :=
| Uncaught (e : exn)          (* an exception nobody handles *)
| Fatal (msg : string)        (* log.fatal_error *)
| Aborted.                    (* log.check_error with errors recorded *)

Inductive outcome (A : Type) : Type :=
| Ret (a : A)
| Halt (h : halt).
Arguments Ret {A} a.
Arguments Halt {A} h.

(** The state threaded through resolution is the list of error messages
    recorded so far, oldest first.  It is kept when a run halts. *)
Definition errors := list string.

Definition M (A : Type) : Type := errors -> outcome A * errors.

Definition ret {A} (a : A) : M A := fun l => (Ret a, l).

Definition bind {A B} (m : M A) (f : A -> M B) : M B :=
  fun l => match m l with
           | (Ret a, l') => f a l'
           | (Halt h, l') => (Halt h, l')
           end.

Definition raise {A} (e : exn) : M A := fun l => (Halt (Uncaught e), l).

Definition lift {A} (r : exn + A) : M A :=
  match r with inl e => raise e | inr a => ret a end.

(** [try: m except KeyError: handler]. *)
Definition try_KeyError {A} (m : M A) (handler : M A) : M A :=
  fun l => match m l with
           | (Halt (Uncaught KeyError), l') => handler l'
           | r => r
           end.

Declare Scope py_scope.
Delimit Scope py_scope with py.
Notation "x <- m ;; k" := (bind m (fun x => k))
  (at level 61, m at next level, right associativity) : py_scope.
Notation "m ;; k" := (bind m (fun _ => k))
  (at level 61, right associativity) : py_scope.
Notation "' pat <- m ;; k" := (bind m (fun x => match x with pat => k end))
  (at level 61, pat pattern, m at next level, right associativity) : py_scope.
Open Scope py_scope.

Module Log.

(** Modelled from the spec: [gd2gs.logger] is imported by [config.py] but is
    not among the sources.  Section 4.1 of the specification gives its
    contract: [error] appends a non-fatal error and continues. *)
Definition error (msg : string) : M unit := fun l => (Ret tt, (l ++ [msg])%list).

(** Modelled from the spec: [gd2gs.logger.fatal_error], which "immediately
    terminates the whole resolution process" (section 4.1). *)
Definition fatal_error {A} (msg : string) : M A := fun l => (Halt (Fatal msg), l).

(** Modelled from the spec: [gd2gs.logger.check_error], which "terminates
    the process if one or more non-fatal errors were recorded"
    (section 4.1). *)
Definition check_error : M unit :=
  fun l => match l with
           | [] => (Ret tt, l)
           | _ :: _ => (Halt Aborted, l)
           end.

(** Modelled from the spec: [gd2gs.logger.debug].  Debug output is not a
    diagnostic; the argument is evaluated by the caller, where that can
    raise. *)
Definition debug (msg : string) : M unit := ret tt.

End Log.

(** ** Constants of config.py *)

Definition BUGZILLA := "BUGZILLA".
Definition API_KEY := "API_KEY".
Definition DOMAIN := "DOMAIN".
Definition URL := "URL".
Definition JIRA := "JIRA".
Definition SERVER := "SERVER".
Definition TOKEN := "TOKEN".
Definition MAX_RESULTS := "MAX_RESULTS".
Definition DEFAULT_MAX_RESULTS : value := VInt 100.
Definition QUERY := "QUERY".
Definition SPREADSHEET_ID := "SPREADSHEET_ID".
Definition SHEETS := "SHEETS".
Definition NAME := "NAME".
Definition HEADER_OFFSET := "HEADER_OFFSET".
Definition DEFAULT_HEADER_OFFSET : Z := 0.
Definition DEFAULT_COLUMNS := "DEFAULT_COLUMNS".
Definition INIT_DEFAULT_COLUMNS : value := VBool false.
Definition INHERIT_FORMULAS := "INHERIT_FORMULAS".
Definition INIT_INHERIT_FORMULAS : value := VBool false.
Definition SHEET_COLUMNS := "SHEET_COLUMNS".
Definition SOURCE := "SOURCE".
Definition FROM := "FROM".
Definition GET := "GET".
Definition CONDITION := "CONDITION".
Definition KEY := "KEY".
Definition LINK := "LINK".
Definition OPTIONAL := "OPTIONAL".
Definition DELIMITER := "DELIMITER".
Definition DEFAULT_DELIMITER : value := VStr " ".
Definition SHEET := "sheet".

Definition CONFIG_FILE_MISSING_INPUT := "input is missing in the config file".
Definition CONFIG_FILE_UNKNOWN_INPUT := "input is unknown in the config file".
Definition CONFIG_FILE_MISSING_BUGZILLA_API_KEY_FILE :=
  "Bugzilla API key file is not set in the config file".
Definition CONFIG_FILE_MISSING_BUGZILLA_DOMAIN :=
  "Bugzilla domain is not set in the config file".
Definition CONFIG_FILE_MISSING_BUGZILLA_URL :=
  "Bugzilla URL is not set in the config file".
Definition CONFIG_FILE_MISSING_JIRA_TOKEN :=
  "Jira access token is not set in the config file".
Definition CONFIG_FILE_MISSING_JIRA_URL :=
  "Jira server url is not set in the config file".
Definition CONFIG_FILE_MISSING_KEY := "missing key in the config file".
Definition CONFIG_FILE_MISSING_QUERY :=
  "query is not set in the config file for the sheet ".
Definition CONFIG_FILE_MISSING_SHEET := "no sheet is set in the config file".
Definition CONFIG_FILE_MISSING_SPREADSHEET :=
  "spreadsheet_id is not set in the config file".
Definition CONFIG_FILE_MORE_KEYS := "more than one key is set in the config file".
Definition CONFIG_FILE_WRONG_SPREADSHEET :=
  "spreadsheet_id must be a string in the config file".

(** ** Data classes *)

(** [Column].  A field holding Python's [None] holds [VNone].  The class
    declares no [delimiter2]; [get_source_config] adds that attribute to
    the instance, so it is absent ([None] here) until then. *)
Record Column : Type := mkColumn {
  data : value;
  gets : value;
  condition : value;
  optional : value;
  link : value;
  col_delimiter : value;
  delimiter2 : option value
}.

(** [Column()] *)
Definition new_Column : Column :=
  mkColumn VNone VNone VNone VNone VNone DEFAULT_DELIMITER None.

Definition set_data (c : Column) (v : value) : Column :=
  mkColumn v (gets c) (condition c) (optional c) (link c) (col_delimiter c) (delimiter2 c).
Definition set_gets (c : Column) (v : value) : Column :=
  mkColumn (data c) v (condition c) (optional c) (link c) (col_delimiter c) (delimiter2 c).
Definition set_condition (c : Column) (v : value) : Column :=
  mkColumn (data c) (gets c) v (optional c) (link c) (col_delimiter c) (delimiter2 c).
Definition set_optional (c : Column) (v : value) : Column :=
  mkColumn (data c) (gets c) (condition c) v (link c) (col_delimiter c) (delimiter2 c).
Definition set_link (c : Column) (v : value) : Column :=
  mkColumn (data c) (gets c) (condition c) (optional c) v (col_delimiter c) (delimiter2 c).
Definition set_delimiter (c : Column) (v : value) : Column :=
  mkColumn (data c) (gets c) (condition c) (optional c) (link c) v (delimiter2 c).
Definition set_delimiter2 (c : Column) (v : value) : Column :=
  mkColumn (data c) (gets c) (condition c) (optional c) (link c) (col_delimiter c) (Some v).

(** [Sheet].  [columns] is always a dict in a sheet built by
    [get_sheet_config], the only place that builds one; [key] is [None] or a
    column name. *)
Record Sheet : Type := mkSheet {
  header_offset : Z;
  delimiter : value;
  default_columns : value;
  inherit_formulas : value;
  columns : dict Column;
  key : option string
}.

(** Truth value of a key: [None] and the empty name are false. *)
Definition truthy_key (k : option string) : bool :=
  match k with
  | Some s => negb (String.eqb s "")
  | None => false
  end.

(** ** Primitive accessors *)

(** The pattern [x = d[k] if k in d else dflt], also written as
    [if k in d: x = d[k]] over a variable holding [dflt]. *)
Definition get_or (d : value) (k : string) (dflt : value) : M value :=
  b <- lift (contains k d) ;;
  if b then lift (getitem d k) else ret dflt.

(** [get_config(config_data, param, error_message)].  [str] does not fail
    on a loaded value and its result only goes to [log.debug], so of
    [value_str] the model keeps whether it was assigned: the boolean bound
    in the middle. *)
Definition get_config (config_data : value) (param : string)
    (error_message : string) : M value :=
  b <- lift (contains param config_data) ;;
  (if b then ret tt else Log.error error_message) ;;
  bound <- try_KeyError
             (_ <- lift (getitem config_data param) ;; ret true)
             (Log.check_error ;; ret false) ;;
  (if bound : bool then Log.debug param else raise UnboundLocalError) ;;
  lift (getitem config_data param).

(** [get_config_with_default(config_data, param, default_value)] *)
Definition get_config_with_default (config_data : value) (param : string)
    (default_value : value) : M value :=
  b <- lift (contains param config_data) ;;
  v <- (if b then lift (getitem config_data param) else ret default_value) ;;
  Log.debug param ;;
  ret v.

(** [get_input(config_data, error_message)].  The result is [None],
    [BUGZILLA] or [JIRA]. *)
Definition get_input (config_data : value) (error_message : string)
    : M (option string) :=
  b <- lift (contains BUGZILLA config_data) ;;
  param <- (if b then ret (Some BUGZILLA)
            else j <- lift (contains JIRA config_data) ;;
                 if j then ret (Some JIRA)
                 else Log.error error_message ;; ret None) ;;
  bound <- try_KeyError
             (_ <- lift (match param with
                         | Some p => getitem config_data p
                         | None => getitem_none config_data
                         end) ;; ret true)
             (Log.check_error ;; ret false) ;;
  match param with
  | None => raise TypeError            (* None + ': ' *)
  | Some p => if bound : bool then Log.debug p else raise UnboundLocalError
  end ;;
  ret param.

(** ** Column resolver *)

(** [get_source_config(col, c_data)]; the updated column is returned. *)
Definition get_source_config (col : Column) (c_data : value) : M Column :=
  src <- lift (getitem c_data SOURCE) ;;
  if is_dict src then
    d2 <- get_or src DELIMITER (col_delimiter col) ;;
    let col := set_delimiter2 col d2 in
    v <- get_or src FROM (data col) ;;
    let col := set_data col v in
    v <- get_or src GET (gets col) ;;
    let col := set_gets col v in
    v <- get_or src CONDITION (condition col) ;;
    let col := set_condition col v in
    v <- get_or src LINK (link col) ;;
    let col := set_link col v in
    v <- get_or src OPTIONAL (optional col) ;;
    ret (set_optional col v)
  else
    ret (set_data col src).

(** [get_column_config(key, column, col, c_data, delimiter)]; the key and
    the updated column are returned. *)
Definition get_column_config (key : option string) (column : string)
    (col : Column) (c_data : value) (delimiter : value)
    : M (option string * Column) :=
  if is_dict c_data then
    has_key <- lift (contains KEY c_data) ;;
    key <- (if has_key then
              (if truthy_key key then Log.error CONFIG_FILE_MORE_KEYS else ret tt) ;;
              ret (Some column)
            else ret key) ;;
    d <- get_or c_data DELIMITER delimiter ;;
    let col := set_delimiter col d in
    v <- get_or c_data LINK (link col) ;;
    let col := set_link col v in
    v <- get_or c_data OPTIONAL (optional col) ;;
    let col := set_optional col v in
    col <- get_source_config col c_data ;;
    ret (key, col)
  else
    ret (key, set_data col c_data).

(** ** Sheet resolver *)

(** The seeding loop [for column in spreadsheet.columns:
    columns[column] = spreadsheet.columns[column]] over an empty dict. *)
Definition seed_columns (parent : dict Column) : dict Column :=
  fold_left (fun acc k => match dict_get parent k with
                          | Some c => dict_set acc k c
                          | None => acc
                          end)
            (dict_keys parent) [].

(** The loop over [config_data[SHEET_COLUMNS].items()]. *)
Fixpoint resolve_columns (its : list (string * value)) (delimiter : value)
    (key : option string) (columns : dict Column)
    : M (option string * dict Column) :=
  match its with
  | [] => ret (key, columns)
  | (column, c_data) :: rest =>
      '(key', col) <- get_column_config key column new_Column c_data delimiter ;;
      resolve_columns rest delimiter key' (dict_set columns column col)
  end.

(** [get_sheet_config(config_data, spreadsheet)] *)
Definition get_sheet_config (config_data : value) (spreadsheet : option Sheet)
    : M Sheet :=
  let key0 := match spreadsheet with Some sp => key sp | None => None end in
  let columns0 := match spreadsheet with
                  | Some sp => seed_columns (columns sp)
                  | None => []
                  end in
  let header_offset0 := match spreadsheet with
                        | Some sp => header_offset sp
                        | None => DEFAULT_HEADER_OFFSET
                        end in
  let delimiter0 := match spreadsheet with
                    | Some sp => delimiter sp
                    | None => DEFAULT_DELIMITER
                    end in
  let default_columns0 := match spreadsheet with
                          | Some sp => default_columns sp
                          | None => INIT_DEFAULT_COLUMNS
                          end in
  let inherit_formulas0 := match spreadsheet with
                           | Some sp => inherit_formulas sp
                           | None => INIT_INHERIT_FORMULAS
                           end in
  has_offset <- lift (contains HEADER_OFFSET config_data) ;;
  header_offset1 <- (if has_offset
                     then v <- lift (getitem config_data HEADER_OFFSET) ;; lift (int v)
                     else ret header_offset0) ;;
  delimiter1 <- get_or config_data DELIMITER delimiter0 ;;
  default_columns1 <- get_or config_data DEFAULT_COLUMNS default_columns0 ;;
  inherit_formulas1 <- get_or config_data INHERIT_FORMULAS inherit_formulas0 ;;
  has_columns <- lift (contains SHEET_COLUMNS config_data) ;;
  '(key1, columns1) <-
     (if has_columns
      then cs <- lift (getitem config_data SHEET_COLUMNS) ;;
           its <- lift (items cs) ;;
           resolve_columns its delimiter1 key0 columns0
      else ret (key0, columns0)) ;;
  match spreadsheet with
  | Some sp =>
      if dict_empty columns1
      then ret (mkSheet header_offset1 (delimiter sp) default_columns1
                        inherit_formulas1 (columns sp) (key sp))
      else ret (mkSheet header_offset1 delimiter1 default_columns1
                        inherit_formulas1 columns1 key1)
  | None => ret (mkSheet header_offset1 delimiter1 default_columns1
                         inherit_formulas1 columns1 key1)
  end.

(** ** Root resolver *)

(** The [Config] object.  Its attributes are assigned one after another by
    the constructor; an attribute not assigned yet is [None] here. *)
Record Config : Type := mkConfig {
  source : option (option string);
  bugzilla_domain : option value;
  bugzilla_url : option value;
  bugzilla_api_key : option value;
  jira_server : option value;
  jira_token : option value;
  jira_max_results : option Z;
  spreadsheet_id : option value;
  sheets : option (list value);
  sheet : option (dict Sheet);
  queries : option (dict value)
}.

Definition new_Config : Config :=
  mkConfig None None None None None None None None None None None.

Definition set_source (self : Config) (s : option string) : Config :=
  mkConfig (Some s) (bugzilla_domain self) (bugzilla_url self)
           (bugzilla_api_key self) (jira_server self) (jira_token self)
           (jira_max_results self) (spreadsheet_id self) (sheets self)
           (sheet self) (queries self).

Definition set_bugzilla (self : Config) (d u k : value) : Config :=
  mkConfig (source self) (Some d) (Some u) (Some k) (jira_server self)
           (jira_token self) (jira_max_results self) (spreadsheet_id self)
           (sheets self) (sheet self) (queries self).

Definition set_jira (self : Config) (s t : value) (m : Z) : Config :=
  mkConfig (source self) (bugzilla_domain self) (bugzilla_url self)
           (bugzilla_api_key self) (Some s) (Some t) (Some m)
           (spreadsheet_id self) (sheets self) (sheet self) (queries self).

Definition set_spreadsheet_id (self : Config) (v : value) : Config :=
  mkConfig (source self) (bugzilla_domain self) (bugzilla_url self)
           (bugzilla_api_key self) (jira_server self) (jira_token self)
           (jira_max_results self) (Some v) (sheets self) (sheet self)
           (queries self).

Definition set_sheets (self : Config) (names : list value)
    (sh : dict Sheet) (q : dict value) : Config :=
  mkConfig (source self) (bugzilla_domain self) (bugzilla_url self)
           (bugzilla_api_key self) (jira_server self) (jira_token self)
           (jira_max_results self) (spreadsheet_id self) (Some names)
           (Some sh) (Some q).

(** [Config.config_bugzilla] *)
Definition config_bugzilla (self : Config) (config_data : value) : M Config :=
  b <- lift (getitem config_data BUGZILLA) ;;
  d <- get_config b DOMAIN CONFIG_FILE_MISSING_BUGZILLA_DOMAIN ;;
  b <- lift (getitem config_data BUGZILLA) ;;
  u <- get_config b URL CONFIG_FILE_MISSING_BUGZILLA_URL ;;
  b <- lift (getitem config_data BUGZILLA) ;;
  k <- get_config b API_KEY CONFIG_FILE_MISSING_BUGZILLA_API_KEY_FILE ;;
  ret (set_bugzilla self d u k).

(** [Config.config_jira] *)
Definition config_jira (self : Config) (config_data : value) : M Config :=
  j <- lift (getitem config_data JIRA) ;;
  s <- get_config j SERVER CONFIG_FILE_MISSING_JIRA_URL ;;
  j <- lift (getitem config_data JIRA) ;;
  t <- get_config j TOKEN CONFIG_FILE_MISSING_JIRA_TOKEN ;;
  j <- lift (getitem config_data JIRA) ;;
  m <- get_config_with_default j MAX_RESULTS DEFAULT_MAX_RESULTS ;;
  m <- lift (int m) ;;
  ret (set_jira self s t m).

(** The three attributes that the loop of [config_gsheet] fills. *)
Definition sheet_tables : Type := list value * dict Sheet * dict value.

(** One iteration of [for sheet_item in config_data[SHEETS]].  Between the
    [append] and the call of [get_config], [CONFIG_FILE_MISSING_QUERY +
    sheet_item[NAME]] is evaluated, which needs the name to be a string. *)
Definition sheet_step (spreadsheet : Sheet) (sheet_item : value)
    (t : sheet_tables) : M sheet_tables :=
  let '(names, sh, qs) := t in
  name <- lift (getitem sheet_item NAME) ;;
  let names := (names ++ [name])%list in
  name' <- lift (getitem sheet_item NAME) ;;
  match name' with
  | VStr n =>
      query <- get_config sheet_item QUERY (CONFIG_FILE_MISSING_QUERY ++ n) ;;
      let qs := dict_set qs n query in
      s <- get_sheet_config sheet_item (Some spreadsheet) ;;
      let sh := dict_set sh n s in
      (if truthy_key (key s) then ret tt
       else Log.error (CONFIG_FILE_MISSING_KEY ++ " (" ++ SHEET ++ ": " ++ n ++ ")")) ;;
      ret (names, sh, qs)
  | _ => raise TypeError
  end.

Fixpoint sheets_loop (spreadsheet : Sheet) (l : list value)
    (t : sheet_tables) : M sheet_tables :=
  match l with
  | [] => ret t
  | sheet_item :: rest =>
      t' <- sheet_step spreadsheet sheet_item t ;;
      sheets_loop spreadsheet rest t'
  end.

(** [Config.config_gsheet] *)
Definition config_gsheet (self : Config) (config_data : value) : M Config :=
  sid <- get_config config_data SPREADSHEET_ID CONFIG_FILE_MISSING_SPREADSHEET ;;
  let self := set_spreadsheet_id self sid in
  (if is_str sid then ret tt
   else Log.fatal_error CONFIG_FILE_WRONG_SPREADSHEET) ;;
  spreadsheet <- get_sheet_config config_data None ;;
  has_sheets <- lift (contains SHEETS config_data) ;;
  if has_sheets then
    sv <- lift (getitem config_data SHEETS) ;;
    l <- lift (iter sv) ;;
    '(names, sh, qs) <- sheets_loop spreadsheet l ([], [], []) ;;
    ret (set_sheets self names sh qs)
  else
    Log.error CONFIG_FILE_MISSING_SHEET ;;
    ret self.

Definition source_is (s : option string) (name : string) : bool :=
  match s with Some x => String.eqb x name | None => false end.

(** [Config.__init__], from the loaded document on. *)
Definition Config_init (config_data : value) : M Config :=
  src <- get_input config_data CONFIG_FILE_MISSING_INPUT ;;
  let self := set_source new_Config src in
  self <- (if source_is src BUGZILLA then config_bugzilla self config_data
           else if source_is src JIRA then config_jira self config_data
           else match src with
                | Some s => Log.error (s ++ " " ++ CONFIG_FILE_UNKNOWN_INPUT) ;;
                            ret self
                | None => raise TypeError        (* None + ' ' *)
                end) ;;
  self <- config_gsheet self config_data ;;
  Log.check_error ;;
  ret self.

(** A run of the program on a loaded document: no error recorded yet. *)
Definition resolve (config_data : value) : outcome Config * errors :=
  Config_init config_data [].

(** * Pure readings and sample documents

    What the resolvers compute on a mapping, written without the monad, and
    the documents that the examples below run.  The lemmas of the next part
    relate each reading to the resolver it describes. *)

(** [d[k] if k in d else dflt] on a mapping. *)
Definition pick (m : dict value) (k : string) (dflt : value) : value :=
  match dict_get m k with Some v => v | None => dflt end.

(** [int(config_data[HEADER_OFFSET])] when the field is there. *)
Definition header_of (m : dict value) (dflt : Z) : exn + Z :=
  match dict_get m HEADER_OFFSET with
  | Some v => int v
  | None => inr dflt
  end.

(** Whether a column specification carries the key marker. *)
Definition marks_key (c_data : value) : bool :=
  match c_data with
  | VDict c => dict_mem c KEY
  | _ => false
  end.

(** Whether [c_data[SOURCE]] can be read where [get_source_config] reads
    it: a scalar specification never gets there. *)
Definition has_source (c_data : value) : bool :=
  match c_data with
  | VDict c => dict_mem c SOURCE
  | _ => true
  end.

(** The column that [get_source_config] leaves, given the value of
    [c_data[SOURCE]]. *)
Definition source_column (col : Column) (src : value) : Column :=
  match src with
  | VDict s =>
      let col := set_delimiter2 col (pick s DELIMITER (col_delimiter col)) in
      let col := set_data col (pick s FROM (data col)) in
      let col := set_gets col (pick s GET (gets col)) in
      let col := set_condition col (pick s CONDITION (condition col)) in
      let col := set_link col (pick s LINK (link col)) in
      set_optional col (pick s OPTIONAL (optional col))
  | _ => set_data col src
  end.

(** The column that [get_column_config] leaves. *)
Definition resolved_column (col : Column) (c_data : value) (delimiter : value)
    : Column :=
  match c_data with
  | VDict c =>
      let col := set_delimiter col (pick c DELIMITER delimiter) in
      let col := set_link col (pick c LINK (link col)) in
      let col := set_optional col (pick c OPTIONAL (optional col)) in
      source_column col (pick c SOURCE VNone)
  | _ => set_data col c_data
  end.

(** The key that [get_column_config] returns. *)
Definition next_key (key : option string) (column : string) (c_data : value)
    : option string :=
  if marks_key c_data then Some column else key.

(** The errors after one call of [get_column_config]. *)
Definition log_after_key (key : option string) (c_data : value) (l : errors)
    : errors :=
  if marks_key c_data && truthy_key key
  then (l ++ [CONFIG_FILE_MORE_KEYS])%list else l.

(** The names of the key-marked columns of a column map, in declaration
    order. *)
Definition key_columns (its : dict value) : list string :=
  map fst (filter (fun kv => marks_key (snd kv)) its).

(** The running key, the number of "more than one key" errors and the
    column map after the loop over a column map. *)
Fixpoint key_after (its : dict value) (key : option string) : option string :=
  match its with
  | [] => key
  | (column, c_data) :: rest => key_after rest (next_key key column c_data)
  end.

Fixpoint key_errors (its : dict value) (key : option string) : nat :=
  match its with
  | [] => 0%nat
  | (column, c_data) :: rest =>
      ((if marks_key c_data && truthy_key key then 1 else 0)
       + key_errors rest (next_key key column c_data))%nat
  end.

Fixpoint columns_after (its : dict value) (delimiter : value)
    (columns : dict Column) : dict Column :=
  match its with
  | [] => columns
  | (column, c_data) :: rest =>
      columns_after rest delimiter
        (dict_set columns column (resolved_column new_Column c_data delimiter))
  end.

(** The column map that a sheet specification declares, if it declares one
    that is a mapping. *)
Definition declared_columns (m : dict value) : dict value :=
  match dict_get m SHEET_COLUMNS with
  | Some (VDict its) => its
  | _ => []
  end.

(** The column part of a sheet specification resolves without an
    exception: SHEET_COLUMNS, when present, is a mapping and each of its
    structured columns has a SOURCE. *)
Definition columns_ok (m : dict value) : bool :=
  match dict_get m SHEET_COLUMNS with
  | None => true
  | Some (VDict its) => forallb (fun kv => has_source (snd kv)) its
  | Some _ => false
  end.

(** What [get_sheet_config] seeds from the parent, or from the defaults. *)
Definition seed_key (spreadsheet : option Sheet) : option string :=
  match spreadsheet with Some sp => key sp | None => None end.
Definition seed_map (spreadsheet : option Sheet) : dict Column :=
  match spreadsheet with Some sp => seed_columns (columns sp) | None => [] end.
Definition seed_offset (spreadsheet : option Sheet) : Z :=
  match spreadsheet with Some sp => header_offset sp | None => DEFAULT_HEADER_OFFSET end.
Definition seed_delimiter (spreadsheet : option Sheet) : value :=
  match spreadsheet with Some sp => delimiter sp | None => DEFAULT_DELIMITER end.
Definition seed_default_columns (spreadsheet : option Sheet) : value :=
  match spreadsheet with Some sp => default_columns sp | None => INIT_DEFAULT_COLUMNS end.
Definition seed_inherit_formulas (spreadsheet : option Sheet) : value :=
  match spreadsheet with Some sp => inherit_formulas sp | None => INIT_INHERIT_FORMULAS end.

(** The last statements of [get_sheet_config]: the fall-back to the parent
    when no column is left, and the construction of the [Sheet]. *)
Definition finish_sheet (spreadsheet : option Sheet) (offset : Z)
    (dl dc inf : value) (cols : dict Column) (k : option string) : Sheet :=
  match spreadsheet with
  | Some sp =>
      if dict_empty cols
      then mkSheet offset (delimiter sp) dc inf (columns sp) (key sp)
      else mkSheet offset dl dc inf cols k
  | None => mkSheet offset dl dc inf cols k
  end.

(** The [Sheet] that [get_sheet_config] returns for a mapping whose header
    offset converts to [offset]. *)
Definition sheet_of (m : dict value) (spreadsheet : option Sheet) (offset : Z)
    : Sheet :=
  let dl := pick m DELIMITER (seed_delimiter spreadsheet) in
  finish_sheet spreadsheet offset dl
    (pick m DEFAULT_COLUMNS (seed_default_columns spreadsheet))
    (pick m INHERIT_FORMULAS (seed_inherit_formulas spreadsheet))
    (columns_after (declared_columns m) dl (seed_map spreadsheet))
    (key_after (declared_columns m) (seed_key spreadsheet)).

(** The errors that one check per field would record: one message for each
    of DOMAIN, URL and API_KEY that the tracker section lacks. *)
Definition missing_bugzilla (b : dict value) : list string :=
  ((if dict_mem b DOMAIN then [] else [CONFIG_FILE_MISSING_BUGZILLA_DOMAIN]) ++
   (if dict_mem b URL then [] else [CONFIG_FILE_MISSING_BUGZILLA_URL]) ++
   (if dict_mem b API_KEY then [] else [CONFIG_FILE_MISSING_BUGZILLA_API_KEY_FILE]))%list.

Definition doc_bugzilla_empty : value :=
  VDict [(BUGZILLA, VDict []);
         (SPREADSHEET_ID, VStr "id");
         (SHEETS, VList [])].

Definition doc_both_trackers : value :=
  VDict [(BUGZILLA, VDict [(DOMAIN, VStr "example.org");
                           (URL, VStr "https://bugs.example.org");
                           (API_KEY, VStr "key.txt")]);
         (JIRA, VDict [(SERVER, VStr "https://jira.example.org");
                       (TOKEN, VStr "token.txt")]);
         (SPREADSHEET_ID, VStr "id");
         (SHEETS, VList [VDict [(NAME, VStr "Bugs");
                                (QUERY, VStr "product=x");
                                (SHEET_COLUMNS,
                                 VDict [("Bug", VDict [(KEY, VBool true);
                                                       (SOURCE, VStr "id")])])]])].


Definition doc_numeric_id : value :=
  VDict [(BUGZILLA, VDict [(DOMAIN, VStr "example.org");
                           (URL, VStr "https://bugs.example.org");
                           (API_KEY, VStr "key.txt")]);
         (SPREADSHEET_ID, VInt 123)].


(** A structured column read from one tracker field. *)
Definition column_from_field (field : string) : value :=
  VDict [(SOURCE, VStr field)].

(** The same, marked as the key of its sheet. *)
Definition key_column_from_field (field : string) : value :=
  VDict [(KEY, VBool true); (SOURCE, VStr field)].

Definition sheet_two_keys : dict value :=
  [(NAME, VStr "Bugs");
   (SHEET_COLUMNS, VDict [("Bug", key_column_from_field "id");
                          ("Summary", column_from_field "summary");
                          ("Alias", key_column_from_field "alias")])].

Definition sheet_three_keys : dict value :=
  [(NAME, VStr "Bugs");
   (SHEET_COLUMNS, VDict [("Bug", key_column_from_field "id");
                          ("Alias", key_column_from_field "alias");
                          ("Link", key_column_from_field "weburl")])].

(** Spreadsheet defaults with one key column, as [get_sheet_config] builds
    them from a root document that declares [Bug] under SHEET_COLUMNS. *)
Definition root_with_columns : dict value :=
  [(SPREADSHEET_ID, VStr "id");
   (DELIMITER, VStr ",");
   (SHEET_COLUMNS, VDict [("Bug", key_column_from_field "id")])].

Definition defaults_with_columns : Sheet :=
  mkSheet 0 (VStr ",") (VBool false) (VBool false)
          [("Bug", mkColumn (VStr "id") VNone VNone VNone VNone (VStr ",") None)]
          (Some "Bug").

(** Spreadsheet defaults of a root document without SHEET_COLUMNS. *)
Definition root_without_columns : dict value :=
  [(SPREADSHEET_ID, VStr "id"); (DELIMITER, VStr ",")].

Definition defaults_without_columns : Sheet :=
  mkSheet 0 (VStr ",") (VBool false) (VBool false) [] None.

Definition sheet_own_columns : dict value :=
  [(NAME, VStr "Open");
   (QUERY, VStr "status=open");
   (SHEET_COLUMNS, VDict [("Summary", VStr "summary")])].

Definition sheet_own_delimiter : dict value :=
  [(NAME, VStr "Open"); (QUERY, VStr "status=open"); (DELIMITER, VStr ";")].

Definition sheet_no_columns : dict value :=
  [(NAME, VStr "Open");
   (QUERY, VStr "status=open");
   (HEADER_OFFSET, VInt 2);
   (DEFAULT_COLUMNS, VBool false)].

(** The column of the scenario of C4. *)
Definition column_nested_source : dict value :=
  [(SOURCE, VDict [(FROM, VStr "x.y"); (DELIMITER, VStr ";")])].

(** A structured column without SOURCE. *)
Definition column_link_only : dict value :=
  [(LINK, VStr "https://bugs.example.org/")].

(** A document whose second sheet entry has no NAME. *)
Definition sheet_named : dict value :=
  [(NAME, VStr "Bugs");
   (QUERY, VStr "product=x");
   (SHEET_COLUMNS, VDict [("Bug", key_column_from_field "id")])].

Definition sheet_unnamed : dict value :=
  [(QUERY, VStr "product=y")].

Definition doc_unnamed_sheet : dict value :=
  [(BUGZILLA, VDict [(DOMAIN, VStr "example.org");
                     (URL, VStr "https://bugs.example.org");
                     (API_KEY, VStr "key.txt")]);
   (SPREADSHEET_ID, VStr "id");
   (SHEETS, VList [VDict sheet_named; VDict sheet_unnamed])].

(** A computation only appends to the errors recorded so far. *)
Definition grows {A} (m : M A) : Prop :=
  forall l o l', m l = (o, l') -> exists s, l' = (l ++ s)%list.

(** The name that a sheet entry carries, [None] when it carries none. *)
Definition name_of (sheet_item : value) : value :=
  match getitem sheet_item NAME with
  | inr v => v
  | inl _ => VNone
  end.

(** The message recorded for a sheet that ends without a key. *)
Definition missing_key_message (n : string) : string :=
  CONFIG_FILE_MISSING_KEY ++ " (" ++ SHEET ++ ": " ++ n ++ ")".

(** Every sheet of a table has a key. *)
Definition all_keyed (sh : dict Sheet) : Prop :=
  forall n s, dict_get sh n = Some s -> truthy_key (key s) = true.

(** The key of a sheet, when it has one, names one of its columns. *)
Definition key_in_columns (s : Sheet) : Prop :=
  forall k, key s = Some k -> dict_mem (columns s) k = true.

(** The errors that one check per Jira field would record. *)
Definition missing_jira (j : dict value) : list string :=
  ((if dict_mem j SERVER then [] else [CONFIG_FILE_MISSING_JIRA_URL]) ++
   (if dict_mem j TOKEN then [] else [CONFIG_FILE_MISSING_JIRA_TOKEN]))%list.


Definition doc_jira_no_token : dict value :=
  [(JIRA, VDict [(SERVER, VStr "https://jira.example.org")]);
   (SPREADSHEET_ID, VStr "id")].

(** A sheet entry whose only column is a scalar, so that no key is set. *)
Definition sheet_without_key : dict value :=
  [(NAME, VStr "Notes");
   (QUERY, VStr "status=new");
   (SHEET_COLUMNS, VDict [("Summary", VStr "summary")])].

Definition sheet_without_query : dict value :=
  [(NAME, VStr "Notes")].

Definition sheet_numbered : dict value :=
  [(NAME, VInt 2024); (QUERY, VStr "status=new")].

Definition doc_without_sheets : dict value :=
  [(BUGZILLA, VDict [(DOMAIN, VStr "example.org");
                     (URL, VStr "https://bugs.example.org");
                     (API_KEY, VStr "key.txt")]);
   (SPREADSHEET_ID, VStr "id")].

Definition doc_empty_sheets : dict value :=
  [(BUGZILLA, VDict [(DOMAIN, VStr "example.org");
                     (URL, VStr "https://bugs.example.org");
                     (API_KEY, VStr "key.txt")]);
   (SPREADSHEET_ID, VStr "id");
   (SHEETS, VList [])].

Definition doc_without_id : dict value :=
  [(BUGZILLA, VDict [(DOMAIN, VStr "example.org");
                     (URL, VStr "https://bugs.example.org");
                     (API_KEY, VStr "key.txt")]);
   (SHEETS, VList [])].



(** A column with LINK and GET on both levels. *)
Definition column_two_levels : dict value :=
  [(LINK, VStr "https://outer/");
   (GET, VStr "outer");
   (SOURCE, VDict [(FROM, VStr "flags");
                   (GET, VStr "name");
                   (LINK, VStr "https://inner/")])].


Definition sheet_mixed_columns : dict value :=
  [(NAME, VStr "Open");
   (DELIMITER, VStr ";");
   (SHEET_COLUMNS, VDict [("Tags", VDict [(SOURCE, VStr "keywords")]);
                          ("CC", VDict [(DELIMITER, VStr "|");
                                        (SOURCE, VStr "cc")]);
                          ("Note", VStr "n/a")])].

(** ** Documents that resolve *)





(** [Config.__init__] with the dispatch cut down to its two tracker
    branches, to compare with [Config_init]. *)
Definition Config_init_two_branches (config_data : value) : M Config :=
  src <- get_input config_data CONFIG_FILE_MISSING_INPUT ;;
  let self := set_source new_Config src in
  self <- (if source_is src BUGZILLA then config_bugzilla self config_data
           else config_jira self config_data) ;;
  self <- config_gsheet self config_data ;;
  Log.check_error ;;
  ret self.

Definition root_with_settings : dict value :=
  [(SPREADSHEET_ID, VStr "id");
   (DELIMITER, VStr ",");
   (HEADER_OFFSET, VInt 1);
   (INHERIT_FORMULAS, VBool true);
   (SHEET_COLUMNS, VDict [("Bug", key_column_from_field "id")])].

Definition sheet_bare : dict value :=
  [(NAME, VStr "All"); (QUERY, VStr "product=x")].

Definition sheet_bare_again : dict value :=
  [(NAME, VStr "All"); (QUERY, VStr "product=y"); (HEADER_OFFSET, VInt 3)].

(** * Properties *)

(** ** The built-ins at work *)

Example int_of_padded_string : int (VStr " -1_000 ") = inr (-1000).
Proof. reflexivity. Qed.

Example int_of_doubled_underscore : int (VStr "1__0") = inl ValueError.
Proof. reflexivity. Qed.

Example int_of_float_truncates : int (VFloat (S754_finite true 7 (-1))) = inr (-3).
Proof. reflexivity. Qed.

Example contains_on_string : contains "JIRA" (VStr "my JIRA notes") = inr true.
Proof. reflexivity. Qed.

Example contains_on_number : contains "JIRA" (VInt 7) = inl TypeError.
Proof. reflexivity. Qed.

Example dict_set_keeps_place :
  dict_set [("a", 1); ("b", 2)] "a" 3 = [("a", 3); ("b", 2)] /\
  dict_set [("a", 1); ("b", 2)] "c" 3 = [("a", 1); ("b", 2); ("c", 3)].
Proof. split; reflexivity. Qed.

(** ** The monad *)

Lemma bind_ret {A B} (a : A) (f : A -> M B) (l : errors) :
  bind (ret a) f l = f a l.
Proof. reflexivity. Qed.

Lemma bind_Ret {A B} (m : M A) (f : A -> M B) l a l' :
  m l = (Ret a, l') -> bind m f l = f a l'.
Proof. intros H. unfold bind. now rewrite H. Qed.

Lemma bind_Halt {A B} (m : M A) (f : A -> M B) l h l' :
  m l = (Halt h, l') -> bind m f l = (Halt h, l').
Proof. intros H. unfold bind. now rewrite H. Qed.

(** A sequence returns only if its first part does. *)
Lemma bind_inv {A B} (m : M A) (f : A -> M B) l b l' :
  bind m f l = (Ret b, l') ->
  exists a l1, m l = (Ret a, l1) /\ f a l1 = (Ret b, l').
Proof.
  unfold bind. destruct (m l) as [[a | h] l1]; intros H.
  - now exists a, l1.
  - discriminate.
Qed.

Lemma bind_assoc {A B C} (m : M A) (f : A -> M B) (g : B -> M C) l :
  bind (bind m f) g l = bind m (fun a => bind (f a) g) l.
Proof. unfold bind. now destruct (m l) as [[a | h] l1]. Qed.

Lemma bind_error {B} (msg : string) (f : unit -> M B) l :
  bind (Log.error msg) f l = f tt (l ++ [msg])%list.
Proof. reflexivity. Qed.

Lemma check_error_nonempty (l : errors) (msg : string) :
  Log.check_error (l ++ [msg])%list = (Halt Aborted, (l ++ [msg])%list).
Proof. unfold Log.check_error. now destruct l. Qed.

(** ** Accessors on a mapping *)

Lemma get_or_dict (m : dict value) k dflt l :
  get_or (VDict m) k dflt l = (Ret (pick m k dflt), l).
Proof.
  unfold get_or, pick, bind, lift, ret; simpl. unfold dict_mem.
  now destruct (dict_get m k).
Qed.

Lemma bind_get_or {B} (m : dict value) k dflt (f : value -> M B) l :
  bind (get_or (VDict m) k dflt) f l = f (pick m k dflt) l.
Proof. apply bind_Ret, get_or_dict. Qed.

(** One step of symbolic execution of a monadic sequence. *)
Ltac mstep :=
  first [ rewrite bind_assoc | rewrite bind_ret | rewrite bind_error
        | rewrite bind_get_or ].

Lemma get_config_present (d : dict value) p msg v l :
  dict_get d p = Some v -> get_config (VDict d) p msg l = (Ret v, l).
Proof.
  intros H. unfold get_config, bind, lift, ret, try_KeyError; simpl.
  unfold dict_mem. now rewrite H.
Qed.

(** A missing field is recorded, and the [KeyError] handler of
    [get_config] then finds an error recorded and stops the run. *)
Lemma get_config_absent (d : dict value) p msg l :
  dict_get d p = None ->
  get_config (VDict d) p msg l = (Halt Aborted, (l ++ [msg])%list).
Proof.
  intros H. unfold get_config, bind, lift, ret, raise, try_KeyError; simpl.
  unfold dict_mem. rewrite H. unfold Log.error; simpl.
  now rewrite check_error_nonempty.
Qed.

Lemma get_input_bugzilla (m : dict value) msg l :
  dict_mem m BUGZILLA = true ->
  get_input (VDict m) msg l = (Ret (Some BUGZILLA), l).
Proof.
  intros H. unfold get_input, bind, lift, ret, try_KeyError; simpl.
  rewrite H; simpl. unfold dict_mem in H.
  now destruct (dict_get m BUGZILLA).
Qed.

Lemma get_input_neither (m : dict value) msg l :
  dict_mem m BUGZILLA = false -> dict_mem m JIRA = false ->
  get_input (VDict m) msg l = (Halt Aborted, (l ++ [msg])%list).
Proof.
  intros Hb Hj. unfold get_input, bind, lift, ret, try_KeyError; simpl.
  rewrite Hb, Hj; simpl. unfold Log.error.
  now rewrite check_error_nonempty.
Qed.

(** ** C1: missing TrackerA fields *)

(** C1, as stated, fails: a TrackerA section lacking all three fields has
    three missing fields, yet the run records one error only and stops at
    once in [get_config]. *)
Lemma C1_counterexample :
  length (missing_bugzilla []) = 3%nat /\
  resolve doc_bugzilla_empty =
    (Halt Aborted, [CONFIG_FILE_MISSING_BUGZILLA_DOMAIN]).
Proof. split; reflexivity. Qed.

(** C1, amended: for a TrackerA document whose tracker section lacks at
    least one of DOMAIN, URL, API_KEY, resolution records exactly one error,
    the one of the first missing field in the order DOMAIN, URL, API_KEY,
    and stops right there, at the [check_error] of [get_config]. *)
Theorem C1_first_missing_field_aborts (m b : dict value) (msg : string)
    (rest : list string) :
  dict_get m BUGZILLA = Some (VDict b) ->
  missing_bugzilla b = msg :: rest ->
  resolve (VDict m) = (Halt Aborted, [msg]).
Proof.
  intros Hb Hmiss. unfold resolve, Config_init.
  rewrite (bind_Ret _ _ _ _ _ (get_input_bugzilla m _ [] ltac:(unfold dict_mem; now rewrite Hb))).
  cbn [source_is]. rewrite String.eqb_refl.
  apply bind_Halt. unfold config_bugzilla.
  cbn [getitem]. rewrite Hb. unfold lift. rewrite bind_ret.
  unfold missing_bugzilla, dict_mem in Hmiss.
  destruct (dict_get b DOMAIN) as [d |] eqn:Hd.
  - rewrite (bind_Ret _ _ _ _ _ (get_config_present b DOMAIN _ d [] Hd)), bind_ret.
    destruct (dict_get b URL) as [u |] eqn:Hu.
    + rewrite (bind_Ret _ _ _ _ _ (get_config_present b URL _ u [] Hu)), bind_ret.
      destruct (dict_get b API_KEY) as [k |] eqn:Hk.
      * discriminate.
      * apply bind_Halt. rewrite (get_config_absent b API_KEY _ [] Hk).
        cbn in Hmiss. injection Hmiss as <- _. reflexivity.
    + apply bind_Halt. rewrite (get_config_absent b URL _ [] Hu).
      cbn in Hmiss. injection Hmiss as <- _. reflexivity.
  - apply bind_Halt. rewrite (get_config_absent b DOMAIN _ [] Hd).
    cbn in Hmiss. injection Hmiss as <- _. reflexivity.
Qed.

Lemma C1_first_missing_field_aborts_witness :
  resolve (VDict [(BUGZILLA, VDict [(DOMAIN, VStr "example.org")]);
                  (SPREADSHEET_ID, VStr "id")]) =
    (Halt Aborted, [CONFIG_FILE_MISSING_BUGZILLA_URL]).
Proof.
  apply (C1_first_missing_field_aborts _ [(DOMAIN, VStr "example.org")] _
           [CONFIG_FILE_MISSING_BUGZILLA_API_KEY_FILE]); reflexivity.
Defined.

(** ** C6: both trackers, or none *)

(** C6, as stated, fails: a document that declares both tracker keys is
    resolved to the end with no error recorded at all. *)
Lemma C6_counterexample :
  contains BUGZILLA doc_both_trackers = inr true /\
  contains JIRA doc_both_trackers = inr true /\
  (exists c, fst (resolve doc_both_trackers) = Ret c) /\
  snd (resolve doc_both_trackers) = [].
Proof. repeat split. eexists. reflexivity. Qed.

(** C6, amended: a document (a mapping) that declares neither tracker key
    records exactly one error, "input is missing", and the run stops there;
    a document that declares both keys records no input error: [get_input]
    selects BUGZILLA without recording anything and construction goes on
    exactly as for a document that declares TrackerA alone. *)
Theorem C6_neither_one_error_both_none (m : dict value) :
  (dict_mem m BUGZILLA = false -> dict_mem m JIRA = false ->
   resolve (VDict m) = (Halt Aborted, [CONFIG_FILE_MISSING_INPUT])) /\
  (dict_mem m BUGZILLA = true -> dict_mem m JIRA = true ->
   get_input (VDict m) CONFIG_FILE_MISSING_INPUT [] = (Ret (Some BUGZILLA), []) /\
   resolve (VDict m) =
     (self <- config_bugzilla (set_source new_Config (Some BUGZILLA)) (VDict m) ;;
      self <- config_gsheet self (VDict m) ;;
      Log.check_error ;;
      ret self) []).
Proof.
  split.
  - intros Hb Hj. unfold resolve, Config_init.
    apply bind_Halt. now rewrite get_input_neither.
  - intros Hb _. split.
    + now apply get_input_bugzilla.
    + unfold resolve, Config_init.
      rewrite (bind_Ret _ _ _ _ _ (get_input_bugzilla m _ [] Hb)).
      reflexivity.
Qed.

Lemma C6_neither_one_error_both_none_witness :
  resolve (VDict [(SPREADSHEET_ID, VStr "id")]) =
    (Halt Aborted, [CONFIG_FILE_MISSING_INPUT]) /\
  get_input doc_both_trackers CONFIG_FILE_MISSING_INPUT [] =
    (Ret (Some BUGZILLA), []).
Proof.
  split.
  - apply (proj1 (C6_neither_one_error_both_none [(SPREADSHEET_ID, VStr "id")]));
      reflexivity.
  - apply (proj2 (C6_neither_one_error_both_none
                    [(BUGZILLA, VDict [(DOMAIN, VStr "example.org");
                                       (URL, VStr "https://bugs.example.org");
                                       (API_KEY, VStr "key.txt")]);
                     (JIRA, VDict [(SERVER, VStr "https://jira.example.org");
                                   (TOKEN, VStr "token.txt")]);
                     (SPREADSHEET_ID, VStr "id");
                     (SHEETS, VList [VDict [(NAME, VStr "Bugs");
                                            (QUERY, VStr "product=x");
                                            (SHEET_COLUMNS,
                                             VDict [("Bug", VDict [(KEY, VBool true);
                                                                   (SOURCE, VStr "id")])])]])]));
      reflexivity.
Defined.

(** ** C5: a spreadsheet id that is not a string *)

(** C5, as stated, fails: with SPREADSHEET_ID: 123 the run stops at once on
    a fatal error.  Nothing is recorded, and the document is not walked any
    further: the absence of SHEETS, which a walk would report, is not. *)
Lemma C5_counterexample :
  contains SHEETS doc_numeric_id = inr false /\
  resolve doc_numeric_id = (Halt (Fatal CONFIG_FILE_WRONG_SPREADSHEET), []).
Proof. split; reflexivity. Qed.

Lemma config_gsheet_wrong_id (self : Config) (m : dict value) (v : value) l :
  dict_get m SPREADSHEET_ID = Some v -> is_str v = false ->
  config_gsheet self (VDict m) l =
    (Halt (Fatal CONFIG_FILE_WRONG_SPREADSHEET), l).
Proof.
  intros Hv Hs. unfold config_gsheet.
  rewrite (bind_Ret _ _ _ _ _ (get_config_present m _ _ v l Hv)).
  rewrite Hs. reflexivity.
Qed.

Ltac bind_inv H :=
  let a := fresh "a" in
  let l := fresh "l" in
  let Ha := fresh "Ha" in
  apply bind_inv in H; destruct H as (a & l & Ha & H).

(** C5, amended: when the spreadsheet id is present but not a string,
    [config_gsheet] stops at once on the fatal error "spreadsheet_id must be
    a string": no error is recorded for it, no sheet is walked, and the
    document never resolves to a [Config]. *)
Theorem C5_wrong_id_is_fatal (m : dict value) (v : value) :
  dict_get m SPREADSHEET_ID = Some v -> is_str v = false ->
  (forall self l,
     config_gsheet self (VDict m) l =
       (Halt (Fatal CONFIG_FILE_WRONG_SPREADSHEET), l)) /\
  (forall c l, resolve (VDict m) <> (Ret c, l)).
Proof.
  intros Hv Hs. split.
  - intros self l. now apply config_gsheet_wrong_id with v.
  - intros c l H. unfold resolve, Config_init in H.
    bind_inv H. bind_inv H. bind_inv H.
    rewrite (config_gsheet_wrong_id _ m v _ Hv Hs) in Ha1. discriminate.
Qed.

Lemma C5_wrong_id_is_fatal_witness :
  config_gsheet new_Config doc_numeric_id [] =
    (Halt (Fatal CONFIG_FILE_WRONG_SPREADSHEET), []).
Proof.
  apply (proj1 (C5_wrong_id_is_fatal
                  [(BUGZILLA, VDict [(DOMAIN, VStr "example.org");
                                     (URL, VStr "https://bugs.example.org");
                                     (API_KEY, VStr "key.txt")]);
                   (SPREADSHEET_ID, VInt 123)] (VInt 123)
                  eq_refl eq_refl)).
Defined.

(** ** The column resolver on a mapping *)

Lemma get_source_config_ok (col : Column) (c : dict value) (src : value) l :
  dict_get c SOURCE = Some src ->
  get_source_config col (VDict c) l = (Ret (source_column col src), l).
Proof.
  intros H. unfold get_source_config. cbn [getitem]. rewrite H.
  unfold lift. mstep.
  destruct src; try reflexivity.
  cbn [is_dict source_column]. repeat mstep. reflexivity.
Qed.

Lemma get_source_config_missing (col : Column) (c : dict value) l :
  dict_get c SOURCE = None ->
  get_source_config col (VDict c) l = (Halt (Uncaught KeyError), l).
Proof.
  intros H. unfold get_source_config. cbn [getitem]. now rewrite H.
Qed.

Lemma get_column_config_ok key column col (c_data delimiter : value) l :
  has_source c_data = true ->
  get_column_config key column col c_data delimiter l =
    (Ret (next_key key column c_data, resolved_column col c_data delimiter),
     log_after_key key c_data l).
Proof.
  intros H. unfold get_column_config, next_key, log_after_key.
  destruct c_data as [| | | | | |c]; try reflexivity.
  cbn [is_dict marks_key has_source resolved_column contains] in *.
  unfold lift at 1. mstep.
  unfold dict_mem in H.
  destruct (dict_get c SOURCE) as [src |] eqn:Hsrc; [| discriminate].
  assert (Hp : pick c SOURCE VNone = src) by (unfold pick; now rewrite Hsrc).
  rewrite Hp.
  destruct (dict_mem c KEY), (truthy_key key); cbn [andb]; repeat mstep;
    rewrite (bind_Ret _ _ _ _ _ (get_source_config_ok _ _ _ _ Hsrc));
    reflexivity.
Qed.

Lemma get_column_config_no_source key column col (c : dict value) delimiter l :
  dict_get c SOURCE = None ->
  get_column_config key column col (VDict c) delimiter l =
    (Halt (Uncaught KeyError), log_after_key key (VDict c) l).
Proof.
  intros H. unfold get_column_config, log_after_key.
  cbn [is_dict marks_key contains].
  unfold lift at 1. mstep.
  destruct (dict_mem c KEY), (truthy_key key); cbn [andb]; repeat mstep;
    apply bind_Halt; now apply get_source_config_missing.
Qed.

(** ** The sheet resolver on a mapping *)

Lemma resolve_columns_ok (its : dict value) delimiter key cols l :
  forallb (fun kv => has_source (snd kv)) its = true ->
  resolve_columns its delimiter key cols l =
    (Ret (key_after its key, columns_after its delimiter cols),
     (l ++ repeat CONFIG_FILE_MORE_KEYS (key_errors its key))%list).
Proof.
  revert key cols l.
  induction its as [| [column c_data] rest IH]; intros key cols l Hok.
  - cbn. now rewrite app_nil_r.
  - cbn [forallb snd] in Hok. apply andb_prop in Hok as [Hc Hrest].
    cbn [resolve_columns key_after columns_after key_errors].
    rewrite (bind_Ret _ _ _ _ _ (get_column_config_ok _ _ _ _ _ _ Hc)).
    rewrite IH by assumption. f_equal.
    unfold log_after_key.
    destruct (marks_key c_data && truthy_key key); cbn [Nat.add repeat].
    + now rewrite <- app_assoc.
    + reflexivity.
Qed.

(** The first column without a SOURCE stops the loop with a [KeyError]. *)
Lemma resolve_columns_no_source (pre post : dict value) column
    (c : dict value) delimiter key cols l :
  forallb (fun kv => has_source (snd kv)) pre = true ->
  dict_get c SOURCE = None ->
  exists l',
    resolve_columns (pre ++ (column, VDict c) :: post) delimiter key cols l =
      (Halt (Uncaught KeyError), l').
Proof.
  revert key cols l.
  induction pre as [| [column' c_data] rest IH]; intros key cols l Hok Hc.
  - cbn [app resolve_columns].
    rewrite (bind_Halt _ _ _ _ _ (get_column_config_no_source _ _ _ _ _ _ Hc)).
    eauto.
  - cbn [forallb snd] in Hok. apply andb_prop in Hok as [Hc' Hrest].
    cbn [app resolve_columns].
    rewrite (bind_Ret _ _ _ _ _ (get_column_config_ok _ _ _ _ _ _ Hc')).
    now apply IH.
Qed.

Lemma get_sheet_config_ok (m : dict value) (spreadsheet : option Sheet)
    (offset : Z) l :
  header_of m (seed_offset spreadsheet) = inr offset ->
  columns_ok m = true ->
  get_sheet_config (VDict m) spreadsheet l =
    (Ret (sheet_of m spreadsheet offset),
     (l ++ repeat CONFIG_FILE_MORE_KEYS
             (key_errors (declared_columns m) (seed_key spreadsheet)))%list).
Proof.
  intros Hh Hc. unfold get_sheet_config.
  cbn [contains getitem]. unfold lift at 1. mstep.
  assert (Hoff : forall B (f : Z -> M B) l0,
    bind (if dict_mem m HEADER_OFFSET
          then v <- lift match dict_get m HEADER_OFFSET with
                         | Some x => inr x
                         | None => inl KeyError
                         end ;; lift (int v)
          else ret match spreadsheet with
                   | Some sp => header_offset sp
                   | None => DEFAULT_HEADER_OFFSET
                   end) f l0 = f offset l0).
  { intros B f l0. unfold header_of, seed_offset, dict_mem in *.
    destruct (dict_get m HEADER_OFFSET) as [v |].
    - unfold lift at 1. mstep. mstep. rewrite Hh. reflexivity.
    - now injection Hh as ->. }
  rewrite Hoff. repeat mstep. unfold lift at 1. mstep.
  unfold sheet_of, declared_columns, columns_ok, dict_mem in *.
  fold (seed_key spreadsheet) (seed_map spreadsheet) (seed_delimiter spreadsheet)
       (seed_default_columns spreadsheet) (seed_inherit_formulas spreadsheet).
  destruct (dict_get m SHEET_COLUMNS) as [cs |].
  - destruct cs as [| | | | | |its]; try discriminate.
    unfold lift, items. repeat mstep.
    rewrite (bind_Ret _ _ _ _ _ (resolve_columns_ok _ _ _ _ _ Hc)).
    unfold finish_sheet. destruct spreadsheet as [sp |]; [| reflexivity].
    now destruct (dict_empty _).
  - repeat mstep. cbn [key_errors repeat columns_after key_after].
    rewrite app_nil_r.
    unfold finish_sheet. destruct spreadsheet as [sp |]; [| reflexivity].
    now destruct (dict_empty _).
Qed.

(** ** Dicts *)

Section DictFacts.
Context {A : Type}.
Implicit Types (d : dict A) (k c : string) (v : A).

Lemma dict_get_set d k v c :
  dict_get (dict_set d k v) c =
    if String.eqb c k then Some v else dict_get d c.
Proof.
  induction d as [| [k' v'] d IH]; cbn.
  - reflexivity.
  - destruct (String.eqb k k') eqn:Hk; cbn.
    + apply String.eqb_eq in Hk as <-.
      now destruct (String.eqb c k).
    + rewrite IH. destruct (String.eqb c k') eqn:Hc; [| reflexivity].
      apply String.eqb_eq in Hc as ->.
      now rewrite String.eqb_sym, Hk.
Qed.

Lemma dict_get_notin d k : ~ In k (dict_keys d) -> dict_get d k = None.
Proof.
  induction d as [| [k' v'] d IH]; cbn; intros H.
  - reflexivity.
  - destruct (String.eqb k k') eqn:Hk.
    + apply String.eqb_eq in Hk. exfalso. apply H. now left.
    + apply IH. intros Hin. apply H. now right.
Qed.

Lemma dict_set_notin d k v :
  ~ In k (dict_keys d) -> dict_set d k v = (d ++ [(k, v)])%list.
Proof.
  induction d as [| [k' v'] d IH]; cbn; intros H.
  - reflexivity.
  - destruct (String.eqb k k') eqn:Hk.
    + apply String.eqb_eq in Hk. exfalso. apply H. now left.
    + f_equal. apply IH. intros Hin. apply H. now right.
Qed.

Lemma dict_get_app_notin d1 d2 k :
  ~ In k (dict_keys d1) -> dict_get (d1 ++ d2)%list k = dict_get d2 k.
Proof.
  induction d1 as [| [k' v'] d1 IH]; cbn; intros H.
  - reflexivity.
  - destruct (String.eqb k k') eqn:Hk.
    + apply String.eqb_eq in Hk. exfalso. apply H. now left.
    + apply IH. intros Hin. apply H. now right.
Qed.

Lemma dict_set_nonempty d k v : dict_empty (dict_set d k v) = false.
Proof.
  destruct d as [| [k' v'] d]; cbn; [reflexivity |].
  now destruct (String.eqb k k').
Qed.

Lemma dict_keys_set d k v :
  In k (dict_keys d) -> dict_keys (dict_set d k v) = dict_keys d.
Proof.
  induction d as [| [k' v'] d IH]; cbn; intros H.
  - contradiction.
  - destruct (String.eqb k k') eqn:Hk; cbn; [reflexivity |].
    f_equal. apply IH. destruct H as [H | H]; [| assumption].
    subst. now rewrite String.eqb_refl in Hk.
Qed.

(** Assignment keeps every key once. *)
Lemma dict_set_wf d k v : dict_wf d -> dict_wf (dict_set d k v).
Proof.
  unfold dict_wf. intros H.
  destruct (in_dec string_dec k (dict_keys d)) as [Hin | Hout].
  - now rewrite dict_keys_set.
  - rewrite dict_set_notin by assumption.
    unfold dict_keys. rewrite map_app. cbn.
    apply (NoDup_Add (Add_app k (map fst d) [])).
    rewrite app_nil_r. split; assumption.
Qed.
End DictFacts.

(** ** Seeding from the parent *)

(** The seeding loop, started on the part of the parent already copied,
    copies the rest behind it. *)
Lemma seed_loop_copies (d1 d2 : dict Column) :
  dict_wf (d1 ++ d2)%list ->
  fold_left (fun acc k => match dict_get (d1 ++ d2)%list k with
                          | Some c => dict_set acc k c
                          | None => acc
                          end)
            (dict_keys d2) d1 = (d1 ++ d2)%list.
Proof.
  revert d1. induction d2 as [| [k c] d2 IH]; intros d1 Hwf; cbn.
  - now rewrite app_nil_r.
  - assert (Hout : ~ In k (dict_keys d1)).
    { unfold dict_wf, dict_keys in *. rewrite map_app in Hwf. cbn in Hwf.
      apply NoDup_remove_2 in Hwf. intros Hin. apply Hwf.
      apply in_or_app. now left. }
    rewrite (dict_get_app_notin d1 _ k Hout). cbn. rewrite String.eqb_refl.
    rewrite dict_set_notin by assumption.
    specialize (IH (d1 ++ [(k, c)])%list).
    rewrite <- app_assoc in IH. cbn in IH. now apply IH.
Qed.

(** Seeding copies a dict as it is. *)
Lemma seed_columns_wf (d : dict Column) : dict_wf d -> seed_columns d = d.
Proof. intros H. exact (seed_loop_copies [] d H). Qed.

Lemma seed_loop_get (d : dict Column) (ks : list string) (acc : dict Column) c :
  dict_get (fold_left (fun acc k => match dict_get d k with
                                    | Some x => dict_set acc k x
                                    | None => acc
                                    end) ks acc) c =
    if existsb (String.eqb c) ks
    then match dict_get d c with Some x => Some x | None => dict_get acc c end
    else dict_get acc c.
Proof.
  revert acc. induction ks as [| k ks IH]; intros acc; cbn.
  - reflexivity.
  - rewrite IH. destruct (dict_get d k) as [x |] eqn:Hk.
    + rewrite dict_get_set. destruct (String.eqb c k) eqn:Hc; cbn.
      * apply String.eqb_eq in Hc as ->. rewrite Hk.
        now destruct (existsb _ ks).
      * reflexivity.
    + destruct (String.eqb c k) eqn:Hc; cbn; [| reflexivity].
      apply String.eqb_eq in Hc as ->. rewrite Hk.
      now destruct (existsb _ ks).
Qed.

(** A seeded map answers every lookup as the parent's map does. *)
Lemma seed_columns_get (d : dict Column) c :
  dict_get (seed_columns d) c = dict_get d c.
Proof.
  unfold seed_columns. rewrite seed_loop_get. cbn.
  destruct (existsb (String.eqb c) (dict_keys d)) eqn:He.
  - now destruct (dict_get d c).
  - symmetry. apply dict_get_notin. intros Hin.
    assert (existsb (String.eqb c) (dict_keys d) = true).
    { apply existsb_exists. exists c. split; [assumption | apply String.eqb_refl]. }
    congruence.
Qed.

(** ** The loop over the declared columns *)

Lemma columns_after_nonempty (its : dict value) dl (cols : dict Column) :
  dict_empty cols = false -> dict_empty (columns_after its dl cols) = false.
Proof.
  revert cols. induction its as [| [column c_data] rest IH]; intros cols H; cbn.
  - assumption.
  - apply IH, dict_set_nonempty.
Qed.

Lemma columns_after_declared (its : dict value) dl (cols : dict Column) :
  its <> [] -> dict_empty (columns_after its dl cols) = false.
Proof.
  destruct its as [| [column c_data] rest]; [congruence |]. intros _. cbn.
  apply columns_after_nonempty, dict_set_nonempty.
Qed.

(** After the loop a declared column is the freshly resolved one and any
    other column is as it was before. *)
Lemma columns_after_get (its : dict value) dl (cols : dict Column) c :
  dict_wf its ->
  dict_get (columns_after its dl cols) c =
    match dict_get its c with
    | Some c_data => Some (resolved_column new_Column c_data dl)
    | None => dict_get cols c
    end.
Proof.
  revert cols. induction its as [| [column c_data] rest IH]; intros cols Hwf.
  - reflexivity.
  - unfold dict_wf, dict_keys in Hwf. cbn in Hwf.
    apply NoDup_cons_iff in Hwf as [Hout Hwf].
    cbn [columns_after dict_get]. rewrite IH by assumption.
    destruct (String.eqb c column) eqn:Hc.
    + apply String.eqb_eq in Hc as ->.
      rewrite (dict_get_notin rest column Hout).
      rewrite dict_get_set. now rewrite String.eqb_refl.
    + destruct (dict_get rest c); [reflexivity |].
      rewrite dict_get_set. now rewrite Hc.
Qed.

Lemma last_cons {A} (a d : A) (l : list A) : last (a :: l) d = last l a.
Proof.
  revert a d. induction l as [| b l IH]; intros a d; [reflexivity |].
  change (last (a :: b :: l) d) with (last (b :: l) d).
  now rewrite !IH.
Qed.

(** The key after the loop is the last key-marked column, or the key from
    before when no column is marked. *)
Lemma key_after_last (its : dict value) (k : option string) :
  key_after its k = last (map Some (key_columns its)) k.
Proof.
  revert k. induction its as [| [column c_data] rest IH]; intros k.
  - reflexivity.
  - cbn [key_after]. rewrite IH. unfold next_key, key_columns.
    cbn [filter snd]. destruct (marks_key c_data); [| reflexivity].
    cbn [map fst]. now rewrite last_cons.
Qed.

Lemma key_errors_truthy (its : dict value) (k : option string) :
  truthy_key k = true ->
  Forall (fun n => n <> "") (key_columns its) ->
  key_errors its k = length (key_columns its).
Proof.
  revert k. induction its as [| [column c_data] rest IH]; intros k Hk Hne.
  - reflexivity.
  - cbn [key_errors]. unfold next_key, key_columns in *. cbn [filter snd] in *.
    rewrite Hk. destruct (marks_key c_data); cbn [andb map fst length] in *.
    + apply Forall_cons_iff in Hne as [Hc Hne].
      rewrite IH; [reflexivity | | assumption].
      cbn. now apply negb_true_iff, String.eqb_neq.
    + now rewrite IH.
Qed.

(** Without a key to start from, each key-marked column but the first
    records an error. *)
Lemma key_errors_falsy (its : dict value) (k : option string) :
  truthy_key k = false ->
  Forall (fun n => n <> "") (key_columns its) ->
  key_errors its k = pred (length (key_columns its)).
Proof.
  revert k. induction its as [| [column c_data] rest IH]; intros k Hk Hne.
  - reflexivity.
  - cbn [key_errors]. unfold next_key, key_columns in *. cbn [filter snd] in *.
    rewrite Hk. destruct (marks_key c_data); cbn [andb map fst length] in *.
    + apply Forall_cons_iff in Hne as [Hc Hne].
      cbn [Nat.add pred]. apply key_errors_truthy; [| assumption].
      cbn. now apply negb_true_iff, String.eqb_neq.
    + now rewrite IH.
Qed.

Lemma last_map_Some {A} (a : A) (l : list A) (k : option A) :
  last (map Some (a :: l)) k = Some (last l a).
Proof.
  cbn [map]. rewrite last_cons. revert a.
  induction l as [| b l IH]; intros a; [reflexivity |].
  cbn [map]. now rewrite !last_cons.
Qed.

Lemma declared_columns_eq (m its : dict value) :
  dict_get m SHEET_COLUMNS = Some (VDict its) -> declared_columns m = its.
Proof. intros H. unfold declared_columns. now rewrite H. Qed.

Lemma header_offset_finish spreadsheet offset dl dc inf cols k :
  header_offset (finish_sheet spreadsheet offset dl dc inf cols k) = offset.
Proof.
  unfold finish_sheet. destruct spreadsheet; [| reflexivity].
  now destruct (dict_empty cols).
Qed.

(** ** When the sheet resolver returns *)

Lemma first_without_source (its : dict value) :
  forallb (fun kv => has_source (snd kv)) its = false ->
  exists pre column c post,
    its = (pre ++ (column, VDict c) :: post)%list /\
    forallb (fun kv => has_source (snd kv)) pre = true /\
    dict_get c SOURCE = None.
Proof.
  induction its as [| [column c_data] rest IH]; cbn [forallb snd]; intros H.
  - discriminate.
  - destruct (has_source c_data) eqn:Hs.
    + destruct (IH H) as (pre & column' & c & post & -> & Hpre & Hc).
      exists ((column, c_data) :: pre), column', c, post.
      repeat split; [| assumption]. cbn [forallb snd]. now rewrite Hs.
    + destruct c_data as [| | | | | |c]; try discriminate.
      exists [], column, c, rest. repeat split.
      cbn in Hs. unfold dict_mem in Hs. now destruct (dict_get c SOURCE).
Qed.

(** [get_sheet_config] returns a Sheet for a mapping only if the header
    offset converts and the columns resolve: together with
    [get_sheet_config_ok] this tells exactly when it returns, and what. *)
Lemma get_sheet_config_returns (m : dict value) (spreadsheet : option Sheet)
    l sh l' :
  get_sheet_config (VDict m) spreadsheet l = (Ret sh, l') ->
  exists offset,
    header_of m (seed_offset spreadsheet) = inr offset /\
    columns_ok m = true.
Proof.
  intros H.
  destruct (header_of m (seed_offset spreadsheet)) as [e | offset] eqn:Hh.
  - exfalso. unfold get_sheet_config in H.
    cbn [contains getitem] in H. unfold lift at 1 in H. rewrite bind_ret in H.
    bind_inv H. clear H.
    unfold header_of, seed_offset, dict_mem in *.
    destruct (dict_get m HEADER_OFFSET) as [v |]; [| discriminate].
    unfold lift at 1 in Ha. rewrite bind_ret in Ha.
    rewrite Hh in Ha. discriminate.
  - exists offset. split; [reflexivity |].
    destruct (columns_ok m) eqn:Hok; [reflexivity | exfalso].
    unfold get_sheet_config in H.
    cbn [contains getitem] in H. unfold lift at 1 in H. rewrite bind_ret in H.
    bind_inv H. clear Ha. repeat rewrite bind_get_or in H.
    unfold lift at 1 in H. rewrite bind_ret in H.
    bind_inv H. clear H.
    unfold columns_ok, dict_mem in *.
    destruct (dict_get m SHEET_COLUMNS) as [cs |]; [| discriminate].
    unfold lift at 1 in Ha. rewrite bind_ret in Ha.
    destruct cs as [| | | | | |its]; try discriminate.
    unfold lift, items in Ha. rewrite bind_ret in Ha.
    destruct (first_without_source its Hok)
      as (pre & column & c & post & -> & Hpre & Hc).
    destruct (resolve_columns_no_source pre post column c
                (pick m DELIMITER
                   match spreadsheet with
                   | Some sp => delimiter sp
                   | None => DEFAULT_DELIMITER
                   end)
                match spreadsheet with Some sp => key sp | None => None end
                match spreadsheet with
                | Some sp => seed_columns (columns sp)
                | None => []
                end l0 Hpre Hc) as [l2 Hl2].
    rewrite Hl2 in Ha. discriminate.
Qed.

(** Every column map that the loop leaves holds each name once. *)
Lemma columns_after_wf (its : dict value) dl (cols : dict Column) :
  dict_wf cols -> dict_wf (columns_after its dl cols).
Proof.
  revert cols. induction its as [| [column c_data] rest IH]; intros cols H; cbn.
  - assumption.
  - apply IH, dict_set_wf, H.
Qed.

(** The column map of a resolved Sheet is a proper dict, if that of its
    parent is: the spreadsheet defaults, resolved without a parent, always
    are. *)
Lemma get_sheet_config_wf (m : dict value) (spreadsheet : option Sheet)
    l sh l' :
  (forall sp, spreadsheet = Some sp -> dict_wf (columns sp)) ->
  get_sheet_config (VDict m) spreadsheet l = (Ret sh, l') ->
  dict_wf (columns sh).
Proof.
  intros Hp H.
  destruct (get_sheet_config_returns _ _ _ _ _ H) as (offset & Hoff & Hok).
  rewrite (get_sheet_config_ok m spreadsheet offset l Hoff Hok) in H.
  injection H as <- _.
  unfold sheet_of, finish_sheet.
  destruct spreadsheet as [sp |]; cbn [seed_map].
  - specialize (Hp sp eq_refl).
    destruct (dict_empty _); cbn [columns]; [assumption |].
    apply columns_after_wf. now rewrite seed_columns_wf.
  - cbn [columns]. apply columns_after_wf. constructor.
Qed.

(** The loop leaves no column only when the sheet declares none and the
    parent has none. *)
Lemma no_column_left (its : dict value) dl (d : dict Column) :
  dict_empty (columns_after its dl (seed_columns d)) = true ->
  its = [] /\ d = [].
Proof.
  intros H. destruct its as [| x its].
  - split; [reflexivity |]. cbn in H.
    destruct d as [| [k c] d]; [reflexivity |].
    pose proof (seed_columns_get ((k, c) :: d) k) as Hg.
    destruct (seed_columns ((k, c) :: d)); [| discriminate].
    cbn in Hg. now rewrite String.eqb_refl in Hg.
  - rewrite columns_after_declared in H; discriminate.
Qed.

(** ** C2: several key-marked columns *)

(** C2, as stated, fails.  With two key-marked columns, [Bug] then [Alias],
    one error is recorded but the key recorded is [Alias], the last one, not
    [Bug]; with three key-marked columns two errors are recorded, not one. *)
Lemma C2_counterexample :
  key_columns (declared_columns sheet_two_keys) = ["Bug"; "Alias"] /\
  (exists sh,
     get_sheet_config (VDict sheet_two_keys) (Some defaults_without_columns) [] =
       (Ret sh, [CONFIG_FILE_MORE_KEYS]) /\
     key sh = Some "Alias" /\ key sh <> Some "Bug") /\
  key_columns (declared_columns sheet_three_keys) = ["Bug"; "Alias"; "Link"] /\
  snd (get_sheet_config (VDict sheet_three_keys) (Some defaults_without_columns) []) =
    [CONFIG_FILE_MORE_KEYS; CONFIG_FILE_MORE_KEYS].
Proof.
  split; [reflexivity |]. split.
  - eexists. split; [reflexivity |]. split; [reflexivity | discriminate].
  - split; reflexivity.
Qed.

(** C2, amended: for every sheet that inherits no key and declares n
    key-marked columns, n >= 1 and so in particular n >= 2 (with non-empty
    names, every structured column of the sheet having a SOURCE, and a
    header offset that converts), resolution records n - 1 "more than one
    key" errors, exactly one when n = 2, and the key recorded on the
    resolved Sheet is the name of the last key-marked column in declaration
    order.  [first :: others] are the key-marked columns. *)
Theorem C2_last_key_wins (m its : dict value) (spreadsheet : option Sheet)
    (offset : Z) (first : string) (others : list string) (l : errors) :
  dict_get m SHEET_COLUMNS = Some (VDict its) ->
  header_of m (seed_offset spreadsheet) = inr offset ->
  columns_ok m = true ->
  truthy_key (seed_key spreadsheet) = false ->
  key_columns its = first :: others ->
  Forall (fun n => n <> "") (key_columns its) ->
  exists sh,
    get_sheet_config (VDict m) spreadsheet l =
      (Ret sh, (l ++ repeat CONFIG_FILE_MORE_KEYS (length others))%list) /\
    key sh = Some (last others first).
Proof.
  intros Hcols Hoff Hok Hseed Hkeys Hnames.
  exists (sheet_of m spreadsheet offset). split.
  - rewrite (get_sheet_config_ok m spreadsheet offset l Hoff Hok).
    rewrite (declared_columns_eq m its Hcols).
    rewrite (key_errors_falsy its _ Hseed Hnames), Hkeys. reflexivity.
  - unfold sheet_of. rewrite (declared_columns_eq m its Hcols).
    assert (Hne : its <> []) by (intros ->; discriminate).
    assert (Hk : key_after its (seed_key spreadsheet) = Some (last others first)).
    { rewrite key_after_last, Hkeys. apply last_map_Some. }
    unfold finish_sheet. destruct spreadsheet as [sp |]; [| exact Hk].
    rewrite (columns_after_declared its _ _ Hne). exact Hk.
Qed.

Lemma C2_last_key_wins_witness :
  exists sh,
    get_sheet_config (VDict sheet_two_keys) (Some defaults_without_columns) [] =
      (Ret sh, [CONFIG_FILE_MORE_KEYS]) /\
    key sh = Some "Alias".
Proof.
  apply (C2_last_key_wins sheet_two_keys
           [("Bug", key_column_from_field "id");
            ("Summary", column_from_field "summary");
            ("Alias", key_column_from_field "alias")]
           (Some defaults_without_columns) 0 "Bug" ["Alias"] []);
    try reflexivity.
  repeat constructor; discriminate.
Defined.

(** ** C3: a sheet with its own column map *)

(** C3, as stated, fails: the sheet declares the single column [Summary],
    yet the resolved Sheet still holds the parent's column [Bug] and the
    parent's key. *)
Lemma C3_counterexample :
  get_sheet_config (VDict root_with_columns) None [] =
    (Ret defaults_with_columns, []) /\
  dict_get (declared_columns sheet_own_columns) "Bug" = None /\
  exists sh,
    get_sheet_config (VDict sheet_own_columns) (Some defaults_with_columns) [] =
      (Ret sh, []) /\
    dict_get (columns sh) "Bug" = dict_get (columns defaults_with_columns) "Bug" /\
    dict_mem (columns sh) "Bug" = true /\
    key sh = key defaults_with_columns /\
    key sh = Some "Bug".
Proof.
  split; [reflexivity |]. split; [reflexivity |].
  eexists. repeat split; reflexivity.
Qed.

(** C3, amended: for every sheet specification that declares its own column
    map and is resolved with a parent, the resolved column map is the
    parent's map overlaid column by column with the freshly resolved
    columns: each declared column holds its freshly resolved Column (taking
    the place of a parent column of the same name), every parent column
    that the sheet does not declare survives unchanged, and the parent's key
    survives when no declared column is marked as key. *)
Theorem C3_columns_overlay_parent (m its : dict value) (sp : Sheet)
    (offset : Z) (l : errors) :
  dict_get m SHEET_COLUMNS = Some (VDict its) ->
  dict_wf its ->
  header_of m (header_offset sp) = inr offset ->
  columns_ok m = true ->
  exists sh l',
    get_sheet_config (VDict m) (Some sp) l = (Ret sh, l') /\
    (forall c c_data,
       dict_get its c = Some c_data ->
       dict_get (columns sh) c =
         Some (resolved_column new_Column c_data (pick m DELIMITER (delimiter sp)))) /\
    (forall c,
       dict_get its c = None ->
       dict_get (columns sh) c = dict_get (columns sp) c) /\
    (key_columns its = [] -> key sh = key sp).
Proof.
  intros Hcols Hwf Hoff Hok.
  eexists. eexists. split.
  - exact (get_sheet_config_ok m (Some sp) offset l Hoff Hok).
  - unfold sheet_of. rewrite (declared_columns_eq m its Hcols).
    cbn [finish_sheet seed_map seed_key seed_delimiter].
    destruct (dict_empty (columns_after its _ _)) eqn:He; cbn [columns key].
    + assert (its = []) as ->.
      { destruct its as [| x its]; [reflexivity |].
        rewrite columns_after_declared in He; [discriminate |]. discriminate. }
      repeat split; [intros c c_data H; discriminate | reflexivity..].
    + split; [| split].
      * intros c c_data H. rewrite columns_after_get by assumption. now rewrite H.
      * intros c H. rewrite columns_after_get by assumption. rewrite H.
        apply seed_columns_get.
      * intros H. rewrite key_after_last, H. reflexivity.
Qed.

Lemma C3_columns_overlay_parent_witness :
  exists sh l',
    get_sheet_config (VDict sheet_own_columns) (Some defaults_with_columns) [] =
      (Ret sh, l') /\
    (forall c c_data,
       dict_get [("Summary", VStr "summary")] c = Some c_data ->
       dict_get (columns sh) c =
         Some (resolved_column new_Column c_data
                 (pick sheet_own_columns DELIMITER (delimiter defaults_with_columns)))) /\
    (forall c,
       dict_get [("Summary", VStr "summary")] c = None ->
       dict_get (columns sh) c = dict_get (columns defaults_with_columns) c) /\
    (key_columns [("Summary", VStr "summary")] = [] ->
     key sh = key defaults_with_columns).
Proof.
  apply (C3_columns_overlay_parent sheet_own_columns
           [("Summary", VStr "summary")] defaults_with_columns 0 []);
    try reflexivity.
  repeat constructor. cbn. tauto.
Defined.

(** ** C7: a sheet without a column map *)

(** C7: a sheet specification without SHEET_COLUMNS, resolved with the
    spreadsheet defaults as parent, gets the columns and the key of the
    defaults, and records nothing.  The column map of the defaults is a
    dict, each name once, as [get_sheet_config_wf] shows of every Sheet
    that the resolver returns.  The DEFAULT_COLUMNS flag plays no part:
    the specification [m] may set it to any value or leave it out, and so
    may the parent; the resolved Sheet just carries it. *)
Theorem C7_no_columns_reuses_parent (m : dict value) (sp : Sheet)
    (offset : Z) (l : errors) :
  dict_get m SHEET_COLUMNS = None ->
  dict_wf (columns sp) ->
  header_of m (header_offset sp) = inr offset ->
  exists sh,
    get_sheet_config (VDict m) (Some sp) l = (Ret sh, l) /\
    columns sh = columns sp /\
    key sh = key sp /\
    default_columns sh = pick m DEFAULT_COLUMNS (default_columns sp).
Proof.
  intros Hcols Hwf Hoff.
  assert (Hok : columns_ok m = true) by (unfold columns_ok; now rewrite Hcols).
  assert (Hd : declared_columns m = [])
    by (unfold declared_columns; now rewrite Hcols).
  exists (sheet_of m (Some sp) offset). split.
  - rewrite (get_sheet_config_ok m (Some sp) offset l Hoff Hok), Hd.
    cbn [key_errors repeat]. now rewrite app_nil_r.
  - unfold sheet_of. rewrite Hd.
    cbn [finish_sheet columns_after key_after seed_map seed_key
         seed_default_columns].
    rewrite (seed_columns_wf _ Hwf).
    destruct (dict_empty (columns sp)); repeat split; reflexivity.
Qed.

Lemma C7_no_columns_reuses_parent_witness :
  exists sh,
    get_sheet_config (VDict sheet_no_columns) (Some defaults_with_columns) [] =
      (Ret sh, []) /\
    columns sh = columns defaults_with_columns /\
    key sh = key defaults_with_columns /\
    default_columns sh =
      pick sheet_no_columns DEFAULT_COLUMNS (default_columns defaults_with_columns).
Proof.
  apply (C7_no_columns_reuses_parent sheet_no_columns defaults_with_columns 2 []);
    try reflexivity.
  repeat constructor. cbn. tauto.
Defined.

(** ** C8: explicit sheet settings *)

(** C8, as stated, fails for the delimiter: the defaults have no column, the
    sheet sets DELIMITER to ";" and declares no column map, and the
    resolved Sheet carries the delimiter "," of the defaults. *)
Lemma C8_counterexample :
  get_sheet_config (VDict root_without_columns) None [] =
    (Ret defaults_without_columns, []) /\
  dict_get sheet_own_delimiter DELIMITER = Some (VStr ";") /\
  exists sh,
    get_sheet_config (VDict sheet_own_delimiter) (Some defaults_without_columns) [] =
      (Ret sh, []) /\
    delimiter sh = VStr "," /\ delimiter sh <> VStr ";".
Proof.
  split; [reflexivity |]. split; [reflexivity |].
  eexists. split; [reflexivity |]. split; [reflexivity | discriminate].
Qed.

(** C8, amended: for every sheet specification that resolves (its header
    offset converts and its columns resolve), an explicit HEADER_OFFSET is
    carried by the resolved Sheet as [int] converts it, and an explicit
    DEFAULT_COLUMNS or INHERIT_FORMULAS is carried as it is.  An explicit
    DELIMITER is carried when the sheet is resolved without a parent or
    ends with a column map that is not empty; when a parent is given and
    the resolved column map is empty, the resolved delimiter is the
    parent's, whatever the sheet sets. *)
Theorem C8_explicit_settings (m : dict value) (spreadsheet : option Sheet)
    (offset : Z) (l : errors) :
  header_of m (seed_offset spreadsheet) = inr offset ->
  columns_ok m = true ->
  exists sh l',
    get_sheet_config (VDict m) spreadsheet l = (Ret sh, l') /\
    (forall v, dict_get m HEADER_OFFSET = Some v -> int v = inr (header_offset sh)) /\
    (forall v, dict_get m DEFAULT_COLUMNS = Some v -> default_columns sh = v) /\
    (forall v, dict_get m INHERIT_FORMULAS = Some v -> inherit_formulas sh = v) /\
    (forall v, dict_get m DELIMITER = Some v ->
               spreadsheet = None \/ columns sh <> [] -> delimiter sh = v) /\
    (forall sp, spreadsheet = Some sp -> columns sh = [] ->
                delimiter sh = delimiter sp).
Proof.
  intros Hoff Hok. eexists. eexists. split.
  - exact (get_sheet_config_ok m spreadsheet offset l Hoff Hok).
  - unfold sheet_of.
    set (cols := columns_after _ _ _). set (k := key_after _ _).
    split; [| split; [| split; [| split]]].
    + intros v Hv. rewrite header_offset_finish.
      unfold header_of in Hoff. now rewrite Hv in Hoff.
    + intros v Hv. unfold finish_sheet, pick. rewrite Hv.
      destruct spreadsheet; [| reflexivity]. now destruct (dict_empty cols).
    + intros v Hv. unfold finish_sheet, pick. rewrite Hv.
      destruct spreadsheet; [| reflexivity]. now destruct (dict_empty cols).
    + intros v Hv Hcase. unfold finish_sheet, pick. rewrite Hv.
      destruct spreadsheet as [sp |]; [| reflexivity].
      destruct (dict_empty cols) eqn:He; [| reflexivity].
      destruct Hcase as [Hcase | Hcase]; [discriminate |].
      exfalso. apply Hcase. unfold finish_sheet. rewrite He. cbn [columns].
      subst cols. now apply no_column_left in He.
    + intros sp -> Hempty. unfold finish_sheet in *.
      destruct (dict_empty cols) eqn:He; [reflexivity |].
      cbn [columns] in Hempty. rewrite Hempty in He. discriminate.
Qed.

Lemma C8_explicit_settings_witness :
  exists sh l',
    get_sheet_config (VDict sheet_no_columns) (Some defaults_with_columns) [] =
      (Ret sh, l') /\
    (forall v, dict_get sheet_no_columns HEADER_OFFSET = Some v ->
               int v = inr (header_offset sh)) /\
    (forall v, dict_get sheet_no_columns DEFAULT_COLUMNS = Some v ->
               default_columns sh = v) /\
    (forall v, dict_get sheet_no_columns INHERIT_FORMULAS = Some v ->
               inherit_formulas sh = v) /\
    (forall v, dict_get sheet_no_columns DELIMITER = Some v ->
               Some defaults_with_columns = None \/ columns sh <> [] ->
               delimiter sh = v) /\
    (forall sp, Some defaults_with_columns = Some sp -> columns sh = [] ->
                delimiter sh = delimiter sp).
Proof.
  apply (C8_explicit_settings sheet_no_columns (Some defaults_with_columns) 2 []);
    reflexivity.
Defined.

(** ** C4: a nested source with its own delimiter *)

(** C4, as stated, fails: in the scenario, the delimiter of the resolved
    Column is the column-level ",", not the ";" of the nested source. *)
Lemma C4_counterexample :
  exists k col,
    get_column_config None "Tags" new_Column (VDict column_nested_source)
                      (VStr ",") [] = (Ret (k, col), []) /\
    col_delimiter col = VStr "," /\ col_delimiter col <> VStr ";".
Proof.
  eexists. eexists. split; [reflexivity |]. split; [reflexivity | discriminate].
Qed.

(** C4, amended: for a structured column whose SOURCE is a mapping with a
    FROM field and its own DELIMITER, the resolved Column has [data] equal
    to the FROM value; its [delimiter] stays the column-level one (the
    column's own DELIMITER, else the inherited delimiter), and the delimiter
    of the nested source is stored in the separate attribute [delimiter2]. *)
Theorem C4_nested_delimiter_is_delimiter2 (key : option string)
    (column : string) (c s : dict value) (from d2 delimiter : value)
    (l : errors) :
  dict_get c SOURCE = Some (VDict s) ->
  dict_get s FROM = Some from ->
  dict_get s DELIMITER = Some d2 ->
  exists k col l',
    get_column_config key column new_Column (VDict c) delimiter l =
      (Ret (k, col), l') /\
    data col = from /\
    col_delimiter col = pick c DELIMITER delimiter /\
    delimiter2 col = Some d2.
Proof.
  intros Hsrc Hfrom Hd2.
  assert (Hok : has_source (VDict c) = true)
    by (cbn; unfold dict_mem; now rewrite Hsrc).
  eexists. eexists. eexists. split.
  - exact (get_column_config_ok key column new_Column (VDict c) delimiter l Hok).
  - unfold resolved_column, pick. rewrite Hsrc.
    unfold source_column, pick. rewrite Hfrom, Hd2.
    repeat split; reflexivity.
Qed.

Lemma C4_nested_delimiter_is_delimiter2_witness :
  exists k col l',
    get_column_config None "Tags" new_Column (VDict column_nested_source)
                      (VStr ",") [] = (Ret (k, col), l') /\
    data col = VStr "x.y" /\
    col_delimiter col = pick column_nested_source DELIMITER (VStr ",") /\
    delimiter2 col = Some (VStr ";").
Proof.
  apply (C4_nested_delimiter_is_delimiter2 None "Tags" column_nested_source
           [(FROM, VStr "x.y"); (DELIMITER, VStr ";")]);
    reflexivity.
Defined.

(** ** C9: a structured column without SOURCE *)

(** C9, as stated, fails: a structured column that only sets LINK does not
    resolve; reading its SOURCE raises [KeyError]. *)
Lemma C9_counterexample :
  dict_get column_link_only SOURCE = None /\
  get_column_config None "Bug" new_Column (VDict column_link_only)
                    (VStr " ") [] = (Halt (Uncaught KeyError), []).
Proof. split; reflexivity. Qed.

(** C9, amended: for every structured column specification without a
    SOURCE entry, column resolution does not complete: after the key
    bookkeeping (which records "more than one key" when the column is marked
    as key and a key is already set), [get_source_config] reads
    [c_data[SOURCE]] and the run stops on an uncaught [KeyError]; no Column
    is produced. *)
Theorem C9_no_source_raises_KeyError (key : option string) (column : string)
    (col : Column) (c : dict value) (delimiter : value) (l : errors) :
  dict_get c SOURCE = None ->
  get_column_config key column col (VDict c) delimiter l =
    (Halt (Uncaught KeyError), log_after_key key (VDict c) l) /\
  (forall k, get_source_config k (VDict c) l = (Halt (Uncaught KeyError), l)).
Proof.
  intros H. split.
  - now apply get_column_config_no_source.
  - intros k. now apply get_source_config_missing.
Qed.

Lemma C9_no_source_raises_KeyError_witness :
  get_column_config None "Bug" new_Column (VDict column_link_only)
                    (VStr " ") [] =
    (Halt (Uncaught KeyError), log_after_key None (VDict column_link_only) []).
Proof.
  apply (proj1 (C9_no_source_raises_KeyError None "Bug" new_Column
                  column_link_only (VStr " ") [] eq_refl)).
Defined.

(** ** C10: a sheet entry without NAME *)

Lemma sheet_step_no_name (sp : Sheet) (item : dict value) (t : sheet_tables) l :
  dict_get item NAME = None ->
  sheet_step sp (VDict item) t l = (Halt (Uncaught KeyError), l).
Proof.
  intros H. unfold sheet_step. destruct t as [[names sh] qs].
  cbn [getitem]. now rewrite H.
Qed.

Lemma sheets_loop_app (sp : Sheet) (pre post : list value) (t : sheet_tables) l :
  sheets_loop sp (pre ++ post) t l =
    bind (sheets_loop sp pre t) (fun t' => sheets_loop sp post t') l.
Proof.
  revert t l. induction pre as [| x pre IH]; intros t l.
  - reflexivity.
  - cbn [app sheets_loop]. rewrite bind_assoc.
    destruct (sheet_step sp x t l) as [[t' | h] l'] eqn:E.
    + rewrite !(bind_Ret _ _ _ _ _ E). apply IH.
    + now rewrite !(bind_Halt _ _ _ _ _ E).
Qed.

(** The loop stops with [KeyError] at the entry without NAME, if it gets
    there, with the errors recorded by the entries before it. *)
Lemma sheets_loop_no_name (sp : Sheet) (pre post : list value)
    (item : dict value) (t : sheet_tables) l :
  dict_get item NAME = None ->
  sheets_loop sp (pre ++ VDict item :: post) t l =
    match sheets_loop sp pre t l with
    | (Ret _, l') => (Halt (Uncaught KeyError), l')
    | (Halt h, l') => (Halt h, l')
    end.
Proof.
  intros H. rewrite sheets_loop_app. unfold bind at 1.
  destruct (sheets_loop sp pre t l) as [[t' | h] l']; [| reflexivity].
  cbn [sheets_loop]. apply bind_Halt. now apply sheet_step_no_name.
Qed.

(** C10: when a sheet entry of SHEETS is a mapping without NAME,
    [config_gsheet] stops on an uncaught [KeyError] at that entry: if the
    spreadsheet id is a string, the defaults resolve and the entries before
    it are processed, the run halts with [KeyError] and with exactly the
    errors recorded before the entry, so no diagnostic is recorded for the
    entry and the final [check_error] is not reached.  In any case such a
    document never resolves to a [Config]. *)
Theorem C10_missing_name_raises_KeyError (m item : dict value)
    (pre post : list value) :
  dict_get item NAME = None ->
  dict_get m SHEETS = Some (VList (pre ++ VDict item :: post)) ->
  (forall self sid sp t l0 l1 l2,
     dict_get m SPREADSHEET_ID = Some (VStr sid) ->
     get_sheet_config (VDict m) None l0 = (Ret sp, l1) ->
     sheets_loop sp pre ([], [], []) l1 = (Ret t, l2) ->
     config_gsheet self (VDict m) l0 = (Halt (Uncaught KeyError), l2)) /\
  (forall c l, resolve (VDict m) <> (Ret c, l)).
Proof.
  intros Hname Hsheets.
  assert (Hloop : forall self sp l1 c l,
    (has_sheets <- lift (contains SHEETS (VDict m)) ;;
     if has_sheets : bool then
       sv <- lift (getitem (VDict m) SHEETS) ;;
       l <- lift (iter sv) ;;
       '(names, sh, qs) <- sheets_loop sp l ([], [], []) ;;
       ret (set_sheets self names sh qs)
     else Log.error CONFIG_FILE_MISSING_SHEET ;; ret self) l1 <> (Ret c, l)).
  { intros self sp l1 c l H.
    cbn [contains getitem] in H. unfold dict_mem in H. rewrite Hsheets in H.
    unfold lift in H. rewrite !bind_ret in H. cbn [iter] in H.
    rewrite bind_ret in H.
    bind_inv H. rewrite (sheets_loop_no_name _ _ _ _ _ _ Hname) in Ha.
    destruct (sheets_loop sp pre ([], [], []) l1) as [[t' | h] l'];
      discriminate. }
  split.
  - intros self sid sp t l0 l1 l2 Hsid Hsp Hpre. unfold config_gsheet.
    rewrite (bind_Ret _ _ _ _ _ (get_config_present m _ _ _ l0 Hsid)).
    cbn [is_str]. mstep. rewrite (bind_Ret _ _ _ _ _ Hsp).
    cbn [contains getitem]. unfold dict_mem. rewrite Hsheets.
    unfold lift. repeat mstep. cbn [iter]. repeat mstep.
    apply bind_Halt. rewrite (sheets_loop_no_name _ _ _ _ _ _ Hname).
    now rewrite Hpre.
  - intros c l H. unfold resolve, Config_init in H.
    bind_inv H. bind_inv H. bind_inv H. clear H.
    unfold config_gsheet in Ha1.
    bind_inv Ha1. bind_inv Ha1. bind_inv Ha1.
    now apply Hloop in Ha1.
Qed.

Lemma C10_missing_name_raises_KeyError_witness :
  config_gsheet new_Config (VDict doc_unnamed_sheet) [] =
    (Halt (Uncaught KeyError), []).
Proof.
  refine (proj1 (C10_missing_name_raises_KeyError doc_unnamed_sheet
                   sheet_unnamed [VDict sheet_named] [] eq_refl eq_refl)
            new_Config "id"
            (mkSheet 0 (VStr " ") (VBool false) (VBool false) [] None)
            _ [] [] [] eq_refl eq_refl _).
  reflexivity.
Defined.

(** * Further properties of config.py *)

(** ** Errors are only ever appended *)

Lemma grows_ret {A} (a : A) : grows (ret a).
Proof. intros l o l' H. injection H as _ <-. exists []. now rewrite app_nil_r. Qed.

Lemma grows_raise {A} (e : exn) : grows (@raise A e).
Proof. intros l o l' H. injection H as _ <-. exists []. now rewrite app_nil_r. Qed.

Lemma grows_lift {A} (r : exn + A) : grows (lift r).
Proof. destruct r; [apply grows_raise | apply grows_ret]. Qed.

Lemma grows_error (msg : string) : grows (Log.error msg).
Proof. intros l o l' H. injection H as _ <-. now exists [msg]. Qed.

Lemma grows_fatal_error {A} (msg : string) : grows (@Log.fatal_error A msg).
Proof. intros l o l' H. injection H as _ <-. exists []. now rewrite app_nil_r. Qed.

Lemma grows_check_error : grows Log.check_error.
Proof.
  intros l o l' H. unfold Log.check_error in H.
  destruct l; injection H as _ <-; exists []; now rewrite app_nil_r.
Qed.

Lemma grows_debug (msg : string) : grows (Log.debug msg).
Proof. apply grows_ret. Qed.

Lemma grows_bind {A B} (m : M A) (f : A -> M B) :
  grows m -> (forall a, grows (f a)) -> grows (bind m f).
Proof.
  intros Hm Hf l o l' H. unfold bind in H.
  destruct (m l) as [[a | h] l1] eqn:E; destruct (Hm _ _ _ E) as [s1 ->].
  - destruct (Hf a _ _ _ H) as [s2 ->]. exists (s1 ++ s2)%list.
    now rewrite app_assoc.
  - injection H as _ <-. now exists s1.
Qed.

Lemma grows_try_KeyError {A} (m handler : M A) :
  grows m -> grows handler -> grows (try_KeyError m handler).
Proof.
  intros Hm Hh l o l' H. unfold try_KeyError in H.
  destruct (m l) as [[a | [[] | |]] l1] eqn:E; destruct (Hm _ _ _ E) as [s1 ->];
    try (injection H as _ <-; now exists s1).
  destruct (Hh _ _ _ H) as [s2 ->]. exists (s1 ++ s2)%list.
  now rewrite app_assoc.
Qed.

Create HintDb grows.
#[local] Hint Resolve grows_ret grows_raise grows_lift grows_error
  grows_fatal_error grows_check_error grows_debug : grows.

(** Decomposes a monadic term along its sequences and case distinctions. *)
Ltac grows_step :=
  first
    [ apply grows_bind; [| intros ?]
    | apply grows_try_KeyError
    | solve [auto with grows]
    | match goal with
      | |- grows (if ?b then _ else _) => destruct b
      | |- grows (match ?x with _ => _ end) => destruct x
      end ].

Lemma grows_get_or d k dflt : grows (get_or d k dflt).
Proof. unfold get_or. repeat grows_step. Qed.

Lemma grows_get_config d p msg : grows (get_config d p msg).
Proof. unfold get_config. repeat grows_step. Qed.

Lemma grows_get_config_with_default d p dflt :
  grows (get_config_with_default d p dflt).
Proof. unfold get_config_with_default. repeat grows_step. Qed.

Lemma grows_get_input d msg : grows (get_input d msg).
Proof. unfold get_input. repeat grows_step. Qed.

#[local] Hint Resolve grows_get_or grows_get_config
  grows_get_config_with_default grows_get_input : grows.

Lemma grows_get_source_config col c_data : grows (get_source_config col c_data).
Proof. unfold get_source_config. repeat grows_step. Qed.

#[local] Hint Resolve grows_get_source_config : grows.

Lemma grows_get_column_config key column col c_data dl :
  grows (get_column_config key column col c_data dl).
Proof. unfold get_column_config. repeat grows_step. Qed.

#[local] Hint Resolve grows_get_column_config : grows.

Lemma grows_resolve_columns its dl key cols :
  grows (resolve_columns its dl key cols).
Proof.
  revert key cols. induction its as [| [column c_data] rest IH]; intros key cols;
    cbn [resolve_columns].
  - apply grows_ret.
  - apply grows_bind; [auto with grows |]. intros [k col]. apply IH.
Qed.

#[local] Hint Resolve grows_resolve_columns : grows.

Lemma grows_get_sheet_config d spreadsheet : grows (get_sheet_config d spreadsheet).
Proof. unfold get_sheet_config. repeat grows_step. Qed.

#[local] Hint Resolve grows_get_sheet_config : grows.

Lemma grows_config_bugzilla self d : grows (config_bugzilla self d).
Proof. unfold config_bugzilla. repeat grows_step. Qed.

Lemma grows_config_jira self d : grows (config_jira self d).
Proof. unfold config_jira. repeat grows_step. Qed.

Lemma grows_sheet_step sp item t : grows (sheet_step sp item t).
Proof. unfold sheet_step. repeat grows_step. Qed.

#[local] Hint Resolve grows_config_bugzilla grows_config_jira
  grows_sheet_step : grows.

Lemma grows_sheets_loop sp items t : grows (sheets_loop sp items t).
Proof.
  revert t. induction items as [| item rest IH]; intros t; cbn [sheets_loop].
  - apply grows_ret.
  - apply grows_bind; [auto with grows |]. intros t'. apply IH.
Qed.

#[local] Hint Resolve grows_sheets_loop : grows.

Lemma grows_config_gsheet self d : grows (config_gsheet self d).
Proof. unfold config_gsheet. repeat grows_step. Qed.

#[local] Hint Resolve grows_config_gsheet : grows.



(** ** What a run that returns has established *)

Lemma lift_Ret {A} (r : exn + A) l a l' :
  lift r l = (Ret a, l') -> r = inr a /\ l' = l.
Proof.
  destruct r as [e | x]; cbn; intros H; [discriminate |].
  injection H as -> ->. now split.
Qed.

Lemma ret_Ret {A} (x a : A) l l' : ret x l = (Ret a, l') -> a = x /\ l' = l.
Proof. intros H. injection H as -> ->. now split. Qed.

Lemma check_error_Ret l u l' :
  Log.check_error l = (Ret u, l') -> l = [] /\ l' = [].
Proof.
  unfold Log.check_error. destruct l; intros H; [| discriminate].
  injection H as _ <-. now split.
Qed.

(** The guarded read of [get_config] and [get_input] leaves the errors as
    they are whenever it lets the run go on. *)
Lemma try_bound_Ret (r : exn + value) l b l' :
  try_KeyError (_ <- lift r ;; ret true) (Log.check_error ;; ret false) l =
    (Ret b, l') ->
  l' = l.
Proof.
  unfold try_KeyError, bind, lift, raise, ret, Log.check_error.
  destruct r as [[] | x]; destruct l; intros H; try discriminate;
    now injection H as _ <-.
Qed.

(** [get_input] returns only BUGZILLA or JIRA, and only without having
    recorded anything. *)
Lemma get_input_Ret v msg l p l' :
  get_input v msg l = (Ret p, l') ->
  l' = l /\ (p = Some BUGZILLA \/ p = Some JIRA).
Proof.
  intros H. unfold get_input in H.
  bind_inv H. apply lift_Ret in Ha as [Hb ->].
  bind_inv H. bind_inv H. bind_inv H. apply ret_Ret in H as [-> ->].
  apply try_bound_Ret in Ha0 as ->.
  destruct a0 as [q |]; [| discriminate].
  destruct a1; [| discriminate]. apply ret_Ret in Ha1 as [_ ->].
  destruct a.
  - apply ret_Ret in Ha as [-> ->]. auto.
  - bind_inv Ha. apply lift_Ret in Ha0 as [Hj ->]. destruct a.
    + apply ret_Ret in Ha as [-> ->]. auto.
    + bind_inv Ha. apply ret_Ret in Ha as [Hq _]. discriminate.
Qed.

Ltac bind_inv_as H a l Ha :=
  apply bind_inv in H; destruct H as (a & l & Ha & H).

Lemma contains_false_getitem (k : string) (v : value) :
  contains k v = inr false -> exists e, getitem v k = inl e.
Proof.
  destruct v; cbn; intros H; try (now exists TypeError).
  injection H as H. unfold dict_mem in H.
  destruct (dict_get d k); [discriminate | now exists KeyError].
Qed.

Lemma getitem_inr (v : value) (k : string) (x : value) :
  getitem v k = inr x -> exists d, v = VDict d /\ dict_get d k = Some x.
Proof.
  destruct v; cbn; intros H; try discriminate.
  exists d. split; [reflexivity |].
  destruct (dict_get d k); [now injection H as -> | discriminate].
Qed.

Lemma get_config_Ret v p msg l x l' :
  get_config v p msg l = (Ret x, l') -> l' = l /\ getitem v p = inr x.
Proof.
  intros H. unfold get_config in H.
  bind_inv H. apply lift_Ret in Ha as [Hc ->].
  bind_inv H. bind_inv H. bind_inv H. apply lift_Ret in H as [Hx ->].
  apply try_bound_Ret in Ha0 as ->.
  destruct a.
  - apply ret_Ret in Ha as [_ ->].
    destruct a1; [| discriminate]. apply ret_Ret in Ha1 as [_ ->]. now split.
  - apply contains_false_getitem in Hc as [e He]. congruence.
Qed.

Lemma config_bugzilla_Ret self v l c l' :
  config_bugzilla self v l = (Ret c, l') ->
  l' = l /\
  exists b d u k,
    getitem v BUGZILLA = inr b /\ getitem b DOMAIN = inr d /\
    getitem b URL = inr u /\ getitem b API_KEY = inr k /\
    c = set_bugzilla self d u k.
Proof.
  intros H. unfold config_bugzilla in H.
  bind_inv H. apply lift_Ret in Ha as [Hb ->].
  bind_inv H. apply get_config_Ret in Ha as [-> Hd].
  bind_inv H. apply lift_Ret in Ha as [Hb' ->].
  bind_inv H. apply get_config_Ret in Ha as [-> Hu].
  bind_inv H. apply lift_Ret in Ha as [Hb'' ->].
  bind_inv H. apply get_config_Ret in Ha as [-> Hk].
  apply ret_Ret in H as [-> ->].
  assert (a1 = a) by congruence. assert (a3 = a) by congruence. subst.
  split; [reflexivity |]. now exists a, a0, a2, a4.
Qed.

Lemma get_config_with_default_dict (j : dict value) p dflt l :
  get_config_with_default (VDict j) p dflt l = (Ret (pick j p dflt), l).
Proof.
  unfold get_config_with_default, pick, bind, lift, ret, Log.debug; cbn.
  unfold dict_mem. now destruct (dict_get j p).
Qed.

Lemma config_jira_Ret self v l c l' :
  config_jira self v l = (Ret c, l') ->
  l' = l /\
  exists j s t z,
    getitem v JIRA = inr (VDict j) /\ dict_get j SERVER = Some s /\
    dict_get j TOKEN = Some t /\
    int (pick j MAX_RESULTS DEFAULT_MAX_RESULTS) = inr z /\
    c = set_jira self s t z.
Proof.
  intros H. unfold config_jira in H.
  bind_inv H. apply lift_Ret in Ha as [Hj ->].
  bind_inv H. apply get_config_Ret in Ha as [-> Hs].
  bind_inv H. apply lift_Ret in Ha as [Hj' ->].
  bind_inv H. apply get_config_Ret in Ha as [-> Ht].
  bind_inv H. apply lift_Ret in Ha as [Hj'' ->].
  assert (a1 = a) by congruence. assert (a3 = a) by congruence. subst.
  apply getitem_inr in Hs as (j & -> & Hs).
  rewrite (bind_Ret _ _ _ _ _ (get_config_with_default_dict j _ _ _)) in H.
  bind_inv H. apply lift_Ret in Ha as [Hz ->].
  apply ret_Ret in H as [-> ->].
  cbn in Ht. destruct (dict_get j TOKEN) as [t |] eqn:Et; [| discriminate].
  injection Ht as ->.
  split; [reflexivity |]. now exists j, a0, a2, a.
Qed.

(** What one iteration over SHEETS has done when it returns. *)
Lemma sheet_step_Ret sp item names sh qs l t' l' :
  sheet_step sp item (names, sh, qs) l = (Ret t', l') ->
  exists e n q s l1,
    item = VDict e /\ dict_get e NAME = Some (VStr n) /\
    dict_get e QUERY = Some q /\
    get_sheet_config (VDict e) (Some sp) l = (Ret s, l1) /\
    t' = ((names ++ [VStr n])%list, dict_set sh n s, dict_set qs n q) /\
    ((truthy_key (key s) = true /\ l' = l1) \/
     (truthy_key (key s) = false /\ l' = (l1 ++ [missing_key_message n])%list)).
Proof.
  intros H. unfold sheet_step in H.
  bind_inv H. apply lift_Ret in Ha as [Hn ->].
  bind_inv H. apply lift_Ret in Ha as [Hn' ->].
  assert (a0 = a) by congruence. subst a0.
  destruct a as [| | | | n | |]; try discriminate.
  apply getitem_inr in Hn as (e & -> & Hn). clear Hn'.
  bind_inv_as H q0 lq Hq. apply get_config_Ret in Hq as [-> Hq].
  bind_inv_as H s ls Hs. bind_inv_as H u lu Hu. apply ret_Ret in H as [-> ->].
  cbn in Hq. destruct (dict_get e QUERY) as [q |] eqn:Eq; [| discriminate].
  injection Hq as ->.
  exists e, n, q0, s, ls. repeat split; try assumption.
  destruct (truthy_key (key s)).
  - apply ret_Ret in Hu as [_ ->]. now left.
  - injection Hu as _ <-. now right.
Qed.

Lemma dict_mem_set {A} (d : dict A) (k c : string) (v : A) :
  dict_mem (dict_set d k v) c = String.eqb c k || dict_mem d c.
Proof.
  unfold dict_mem. rewrite dict_get_set. now destruct (String.eqb c k).
Qed.

(** The loop lists the names of the entries in document order and files a
    sheet and a query under each of them. *)
Lemma sheets_loop_Ret sp items names sh qs l names' sh' qs' l' :
  sheets_loop sp items (names, sh, qs) l = (Ret (names', sh', qs'), l') ->
  names' = (names ++ map name_of items)%list /\
  (forall n, dict_mem sh n = true -> dict_mem sh' n = true) /\
  (forall n, dict_mem qs n = true -> dict_mem qs' n = true) /\
  Forall (fun item => exists n, name_of item = VStr n /\
                                dict_mem sh' n = true /\ dict_mem qs' n = true)
         items.
Proof.
  revert names sh qs l.
  induction items as [| item rest IH]; intros names sh qs l H;
    cbn [sheets_loop] in H.
  - apply ret_Ret in H as [H ->]. injection H as -> -> ->.
    cbn. rewrite app_nil_r. repeat split; auto.
  - bind_inv_as H t1 l1 Hstep.
    apply sheet_step_Ret in Hstep
      as (e & n & q & s & l0 & -> & Hn & Hq & Hs & -> & _).
    apply IH in H as (-> & Hsh & Hqs & Hall).
    assert (Hname : name_of (VDict e) = VStr n)
      by (unfold name_of; cbn; now rewrite Hn).
    split; [| split; [| split]].
    + cbn [map]. rewrite Hname, <- app_assoc. reflexivity.
    + intros c Hc. apply Hsh. rewrite dict_mem_set, Hc. apply orb_true_r.
    + intros c Hc. apply Hqs. rewrite dict_mem_set, Hc. apply orb_true_r.
    + constructor; [| assumption].
      exists n. split; [assumption |]. split.
      * apply Hsh. now rewrite dict_mem_set, String.eqb_refl.
      * apply Hqs. now rewrite dict_mem_set, String.eqb_refl.
Qed.

(** When the loop ends with no error recorded, every sheet it filed has a
    key. *)
Lemma sheets_loop_keyed sp items names sh qs l names' sh' qs' :
  sheets_loop sp items (names, sh, qs) l = (Ret (names', sh', qs'), []) ->
  all_keyed sh -> all_keyed sh'.
Proof.
  revert names sh qs l.
  induction items as [| item rest IH]; intros names sh qs l H Hk;
    cbn [sheets_loop] in H.
  - apply ret_Ret in H as [H _]. now injection H as _ <- _.
  - bind_inv_as H t1 l1 Hstep.
    apply sheet_step_Ret in Hstep
      as (e & n & q & s & l0 & -> & Hn & Hq & Hs & -> & Hkey).
    destruct (grows_sheets_loop _ _ _ _ _ _ H) as [suffix Hsuffix].
    destruct Hkey as [[Hkey ->] | [_ ->]].
    + apply (IH _ _ _ _ H). intros c s' Hc.
      rewrite dict_get_set in Hc. destruct (String.eqb c n).
      * now injection Hc as <-.
      * now apply (Hk c).
    + exfalso. symmetry in Hsuffix.
      apply app_eq_nil in Hsuffix as [Hsuffix _].
      apply app_eq_nil in Hsuffix as [_ Hsuffix]. discriminate.
Qed.

Lemma config_gsheet_Ret self v l c l' :
  config_gsheet self v l = (Ret c, l') ->
  exists sid,
    getitem v SPREADSHEET_ID = inr (VStr sid) /\
    ((exists sp l1 sv entries names sh qs,
        get_sheet_config v None l = (Ret sp, l1) /\
        getitem v SHEETS = inr sv /\ iter sv = inr entries /\
        sheets_loop sp entries ([], [], []) l1 = (Ret (names, sh, qs), l') /\
        c = set_sheets (set_spreadsheet_id self (VStr sid)) names sh qs) \/
     (c = set_spreadsheet_id self (VStr sid) /\
      exists l1, l' = (l1 ++ [CONFIG_FILE_MISSING_SHEET])%list)).
Proof.
  intros H. unfold config_gsheet in H.
  bind_inv_as H sid0 l0 Hsid. apply get_config_Ret in Hsid as [-> Hsid].
  bind_inv_as H u lu Hu.
  destruct sid0 as [| | | | sid | |]; try discriminate.
  apply ret_Ret in Hu as [_ ->].
  exists sid. split; [assumption |].
  bind_inv_as H sp l1 Hsp. bind_inv_as H has l2 Hhas.
  apply lift_Ret in Hhas as [Hhas ->].
  destruct has.
  - left. bind_inv_as H sv l3 Hsv. apply lift_Ret in Hsv as [Hsv ->].
    bind_inv_as H entries l4 Hit. apply lift_Ret in Hit as [Hit ->].
    bind_inv_as H t l5 Hloop. destruct t as [[names sh] qs].
    apply ret_Ret in H as [-> ->].
    now exists sp, l1, sv, entries, names, sh, qs.
  - right. bind_inv_as H u' l3 He. apply ret_Ret in H as [-> ->].
    injection He as _ <-. split; [reflexivity |]. now exists l1.
Qed.

(** The whole constructor, when it returns. *)
Lemma resolve_Ret (doc : value) (c : Config) (l : errors) :
  resolve doc = (Ret c, l) ->
  l = [] /\
  exists self1 sid sp l1 sv entries names sh qs,
    ((exists d u k,
        self1 = set_bugzilla (set_source new_Config (Some BUGZILLA)) d u k) \/
     (exists s t z,
        self1 = set_jira (set_source new_Config (Some JIRA)) s t z)) /\
    getitem doc SPREADSHEET_ID = inr (VStr sid) /\
    get_sheet_config doc None [] = (Ret sp, l1) /\
    getitem doc SHEETS = inr sv /\ iter sv = inr entries /\
    sheets_loop sp entries ([], [], []) l1 = (Ret (names, sh, qs), []) /\
    c = set_sheets (set_spreadsheet_id self1 (VStr sid)) names sh qs.
Proof.
  intros H. unfold resolve, Config_init in H.
  bind_inv_as H src l0 Hsrc. apply get_input_Ret in Hsrc as [-> Hsrc].
  bind_inv_as H self1 l1 Htr. bind_inv_as H self2 l2 Hgs.
  bind_inv_as H u l3 Hchk. apply check_error_Ret in Hchk as [-> ->].
  apply ret_Ret in H as [-> ->]. split; [reflexivity |].
  assert (Hself : l1 = [] /\
    ((exists d u k,
        self1 = set_bugzilla (set_source new_Config (Some BUGZILLA)) d u k) \/
     (exists s t z,
        self1 = set_jira (set_source new_Config (Some JIRA)) s t z))).
  { destruct Hsrc as [-> | ->]; cbn in Htr.
    - apply config_bugzilla_Ret in Htr as (-> & b & d & u' & k & _ & _ & _ & _ & ->).
      split; [reflexivity |]. left. now exists d, u', k.
    - apply config_jira_Ret in Htr as (-> & j & s & t & z & _ & _ & _ & _ & ->).
      split; [reflexivity |]. right. now exists s, t, z. }
  destruct Hself as [-> Hself].
  apply config_gsheet_Ret in Hgs as (sid & Hsid & [Hgs | [_ [l4 Hl4]]]).
  - destruct Hgs as (sp & l4 & sv & entries & names & sh & qs
                     & Hsp & Hsv & Hit & Hloop & ->).
    now exists self1, sid, sp, l4, sv, entries, names, sh, qs.
  - exfalso. symmetry in Hl4. apply app_eq_nil in Hl4 as [_ Hl4]. discriminate.
Qed.

(** X2: a Config is produced only when no error at all was recorded, and
    only from a mapping: then its source is BUGZILLA or JIRA with the
    parameters of that tracker set, its spreadsheet id is a string, and its
    three sheet tables are set. *)
Theorem X2_config_only_without_errors (doc : value) (c : Config) (l : errors) :
  resolve doc = (Ret c, l) ->
  l = [] /\
  is_dict doc = true /\
  ((source c = Some (Some BUGZILLA) /\
    exists d u k, bugzilla_domain c = Some d /\ bugzilla_url c = Some u /\
                  bugzilla_api_key c = Some k) \/
   (source c = Some (Some JIRA) /\
    exists s t z, jira_server c = Some s /\ jira_token c = Some t /\
                  jira_max_results c = Some z)) /\
  (exists sid, spreadsheet_id c = Some (VStr sid)) /\
  (exists names sh qs,
     sheets c = Some names /\ sheet c = Some sh /\ queries c = Some qs).
Proof.
  intros H. apply resolve_Ret in H
    as (-> & self1 & sid & sp & l1 & sv & entries & names & sh & qs
        & Htr & Hsid & _ & _ & _ & _ & ->).
  split; [reflexivity |]. split.
  { apply getitem_inr in Hsid as (d & -> & _). reflexivity. }
  split; [| split].
  - destruct Htr as [(d & u & k & ->) | (s & t & z & ->)].
    + left. split; [reflexivity |]. now exists d, u, k.
    + right. split; [reflexivity |]. now exists s, t, z.
  - now exists sid.
  - now exists names, sh, qs.
Qed.

Lemma X2_config_only_without_errors_witness :
  exists c l,
    resolve doc_both_trackers = (Ret c, l) /\
    l = [] /\ is_dict doc_both_trackers = true.
Proof.
  eexists. eexists. split; [lazy; reflexivity |].
  pose proof (X2_config_only_without_errors doc_both_trackers _ _ eq_refl)
    as (Hl & Hd & _).
  split; assumption.
Defined.

(** X3: every sheet of a Config that the constructor returns has a key: a
    sheet left without one records an error, and the final check then
    keeps the Config from being returned. *)
Theorem X3_resolved_sheets_have_keys (doc : value) (c : Config) (l : errors)
    (sh : dict Sheet) (n : string) (s : Sheet) :
  resolve doc = (Ret c, l) ->
  sheet c = Some sh ->
  dict_get sh n = Some s ->
  truthy_key (key s) = true.
Proof.
  intros H Hsh Hn. apply resolve_Ret in H
    as (_ & self1 & sid & sp & l1 & sv & entries & names & sh' & qs
        & _ & _ & _ & _ & _ & Hloop & ->).
  cbn in Hsh. injection Hsh as ->.
  apply sheets_loop_keyed in Hloop.
  - now apply (Hloop n).
  - intros c s' Hc. discriminate.
Qed.

Lemma X3_resolved_sheets_have_keys_witness :
  exists c l sh s,
    resolve doc_both_trackers = (Ret c, l) /\
    sheet c = Some sh /\ dict_get sh "Bugs" = Some s /\
    truthy_key (key s) = true.
Proof.
  eexists. eexists. eexists. eexists.
  split; [lazy; reflexivity |]. split; [reflexivity |]. split; [reflexivity |].
  exact (X3_resolved_sheets_have_keys doc_both_trackers _ _ _ "Bugs" _
           eq_refl eq_refl eq_refl).
Defined.

(** X4: in a Config that the constructor returns, [sheets] lists the NAME
    of every entry of SHEETS in document order, each name is a string, and
    [sheet] and [queries] hold an entry under each of them. *)
Theorem X4_sheet_names_in_document_order (doc : value) (c : Config)
    (l : errors) :
  resolve doc = (Ret c, l) ->
  exists sv entries sh qs,
    getitem doc SHEETS = inr sv /\ iter sv = inr entries /\
    sheets c = Some (map name_of entries) /\
    sheet c = Some sh /\ queries c = Some qs /\
    Forall (fun entry => exists n, name_of entry = VStr n /\
                                   dict_mem sh n = true /\ dict_mem qs n = true)
           entries.
Proof.
  intros H. apply resolve_Ret in H
    as (_ & self1 & sid & sp & l1 & sv & entries & names & sh & qs
        & _ & _ & _ & Hsv & Hit & Hloop & ->).
  apply sheets_loop_Ret in Hloop as (-> & _ & _ & Hall).
  exists sv, entries, sh, qs. repeat split; assumption.
Qed.

Lemma X4_sheet_names_in_document_order_witness :
  exists c l,
    resolve doc_both_trackers = (Ret c, l) /\
    exists sv entries sh qs,
      getitem doc_both_trackers SHEETS = inr sv /\ iter sv = inr entries /\
      sheets c = Some (map name_of entries) /\
      sheet c = Some sh /\ queries c = Some qs /\
      Forall (fun entry => exists n, name_of entry = VStr n /\
                                     dict_mem sh n = true /\ dict_mem qs n = true)
             entries.
Proof.
  eexists. eexists. split; [lazy; reflexivity |].
  exact (X4_sheet_names_in_document_order doc_both_trackers _ _ eq_refl).
Defined.

(** ** Documents that are not mappings *)

(** X5: a loaded document that is not a mapping (an empty file, a scalar, a
    sequence) gets no batched diagnostics: the constructor stops in
    [get_input] on an uncaught [TypeError], having recorded nothing or just
    "input is missing". *)
Theorem X5_non_mapping_document_raises (doc : value) :
  is_dict doc = false ->
  exists l,
    resolve doc = (Halt (Uncaught TypeError), l) /\
    (l = [] \/ l = [CONFIG_FILE_MISSING_INPUT]).
Proof.
  intros H. unfold resolve, Config_init, get_input.
  destruct doc as [| b | z | f | s | items | d]; try discriminate;
    try (exists []; split; [reflexivity | now left]).
  - cbn [contains]. unfold lift at 1. rewrite bind_assoc, bind_ret.
    destruct (is_substring BUGZILLA s).
    + exists []. split; [reflexivity | now left].
    + unfold lift at 1. rewrite !bind_assoc, bind_ret.
      destruct (is_substring JIRA s).
      * exists []. split; [reflexivity | now left].
      * exists [CONFIG_FILE_MISSING_INPUT]. split; [reflexivity | now right].
  - cbn [contains]. unfold lift at 1. rewrite bind_assoc, bind_ret.
    destruct (existsb (is_the_str BUGZILLA) items).
    + exists []. split; [reflexivity | now left].
    + unfold lift at 1. rewrite !bind_assoc, bind_ret.
      destruct (existsb (is_the_str JIRA) items).
      * exists []. split; [reflexivity | now left].
      * exists [CONFIG_FILE_MISSING_INPUT]. split; [reflexivity | now right].
Qed.

Lemma X5_non_mapping_document_raises_witness :
  exists l,
    resolve VNone = (Halt (Uncaught TypeError), l) /\
    (l = [] \/ l = [CONFIG_FILE_MISSING_INPUT]).
Proof. apply (X5_non_mapping_document_raises VNone). reflexivity. Defined.

(** ** The required-field accessor *)

(** X6: [get_config] hands a value back in one case only: the data is a
    mapping that holds the field; it then returns the field's value and
    records nothing.  On a mapping without the field it records the message
    and stops the run at once, so it never returns for a missing field; on
    anything that is not a mapping it raises [TypeError]. *)
Theorem X6_get_config_cases (v : value) (p msg : string) (l : errors) :
  match v with
  | VDict d =>
      match dict_get d p with
      | Some x => get_config v p msg l = (Ret x, l)
      | None => get_config v p msg l = (Halt Aborted, (l ++ [msg])%list)
      end
  | _ =>
      exists l', get_config v p msg l = (Halt (Uncaught TypeError), l') /\
                 (l' = l \/ l' = (l ++ [msg])%list)
  end.
Proof.
  destruct v as [| b | z | f | s | items | d];
    try (exists l; split; [reflexivity | now left]).
  - unfold get_config. cbn [contains]. unfold lift at 1. rewrite bind_ret.
    destruct (is_substring p s).
    + exists l. split; [reflexivity | now left].
    + exists (l ++ [msg])%list. split; [reflexivity | now right].
  - unfold get_config. cbn [contains]. unfold lift at 1. rewrite bind_ret.
    destruct (existsb (is_the_str p) items).
    + exists l. split; [reflexivity | now left].
    + exists (l ++ [msg])%list. split; [reflexivity | now right].
  - destruct (dict_get d p) as [x |] eqn:E.
    + now apply get_config_present.
    + now apply get_config_absent.
Qed.

(** ** TrackerB *)

Lemma get_input_jira (m : dict value) msg l :
  dict_mem m BUGZILLA = false -> dict_mem m JIRA = true ->
  get_input (VDict m) msg l = (Ret (Some JIRA), l).
Proof.
  intros Hb Hj. unfold get_input, bind, lift, ret, try_KeyError; simpl.
  rewrite Hb, Hj; simpl. unfold dict_mem in Hj.
  now destruct (dict_get m JIRA).
Qed.




(** X8: for a document that declares JIRA and not BUGZILLA and whose JIRA
    section lacks SERVER or TOKEN, the constructor records exactly one
    error, that of the first missing field in the order SERVER, TOKEN, and
    stops there. *)
Theorem X8_jira_first_missing_field_aborts (m j : dict value) (msg : string)
    (rest : list string) :
  dict_mem m BUGZILLA = false ->
  dict_get m JIRA = Some (VDict j) ->
  missing_jira j = msg :: rest ->
  resolve (VDict m) = (Halt Aborted, [msg]).
Proof.
  intros Hb Hj Hmiss. unfold resolve, Config_init.
  rewrite (bind_Ret _ _ _ _ _
             (get_input_jira m _ [] Hb ltac:(unfold dict_mem; now rewrite Hj))).
  cbn [source_is]. change (String.eqb JIRA BUGZILLA) with false.
  rewrite String.eqb_refl. cbv iota.
  apply bind_Halt. unfold config_jira.
  cbn [getitem]. rewrite Hj. unfold lift at 1 2 3. rewrite bind_ret.
  unfold missing_jira, dict_mem in Hmiss.
  destruct (dict_get j SERVER) as [s |] eqn:Hs.
  - rewrite (bind_Ret _ _ _ _ _ (get_config_present j SERVER _ s [] Hs)), bind_ret.
    destruct (dict_get j TOKEN) as [t |] eqn:Ht.
    + discriminate.
    + apply bind_Halt. rewrite (get_config_absent j TOKEN _ [] Ht).
      cbn in Hmiss. injection Hmiss as <- _. reflexivity.
  - apply bind_Halt. rewrite (get_config_absent j SERVER _ [] Hs).
    cbn in Hmiss. injection Hmiss as <- _. reflexivity.
Qed.

Lemma X8_jira_first_missing_field_aborts_witness :
  resolve (VDict doc_jira_no_token) =
    (Halt Aborted, [CONFIG_FILE_MISSING_JIRA_TOKEN]).
Proof.
  apply (X8_jira_first_missing_field_aborts doc_jira_no_token
           [(SERVER, VStr "https://jira.example.org")] _ []); reflexivity.
Defined.

(** ** One sheet entry *)

Lemma sheet_step_ok (sp : Sheet) (e : dict value) (n : string)
    (q : value) (offset : Z) (names : list value) (sh : dict Sheet)
    (qs : dict value) (l : errors) :
  dict_get e NAME = Some (VStr n) ->
  dict_get e QUERY = Some q ->
  header_of e (header_offset sp) = inr offset ->
  columns_ok e = true ->
  let s := sheet_of e (Some sp) offset in
  sheet_step sp (VDict e) (names, sh, qs) l =
    (Ret ((names ++ [VStr n])%list, dict_set sh n s, dict_set qs n q),
     (l ++ repeat CONFIG_FILE_MORE_KEYS (key_errors (declared_columns e) (key sp))
        ++ (if truthy_key (key s) then [] else [missing_key_message n]))%list).
Proof.
  intros Hn Hq Hoff Hok s. unfold sheet_step.
  cbn [getitem]. rewrite Hn. unfold lift at 1 2. rewrite !bind_ret.
  rewrite (bind_Ret _ _ _ _ _ (get_config_present e QUERY _ q l Hq)).
  rewrite (bind_Ret _ _ _ _ _ (get_sheet_config_ok e (Some sp) offset l Hoff Hok)).
  fold s. cbn [seed_key]. destruct (truthy_key (key s)).
  - rewrite bind_ret. now rewrite app_nil_r.
  - rewrite bind_error. unfold missing_key_message. now rewrite app_assoc.
Qed.

(** X9: a sheet entry with a string NAME and a QUERY, whose specification
    resolves, is filed under its name in all three tables; the errors it
    adds are the "more than one key" errors of its columns and, when the
    resolved Sheet has no key, the "missing key" error that names the
    sheet.  The run goes on in both cases. *)
Theorem X9_sheet_entry_filed (sp : Sheet) (e : dict value) (n : string)
    (q : value) (offset : Z) (names : list value) (sh : dict Sheet)
    (qs : dict value) (l : errors) :
  dict_get e NAME = Some (VStr n) ->
  dict_get e QUERY = Some q ->
  header_of e (header_offset sp) = inr offset ->
  columns_ok e = true ->
  let s := sheet_of e (Some sp) offset in
  sheet_step sp (VDict e) (names, sh, qs) l =
    (Ret ((names ++ [VStr n])%list, dict_set sh n s, dict_set qs n q),
     (l ++ repeat CONFIG_FILE_MORE_KEYS (key_errors (declared_columns e) (key sp))
        ++ (if truthy_key (key s) then [] else [missing_key_message n]))%list).
Proof.
  intros Hn Hq Hoff Hok.
  exact (sheet_step_ok sp e n q offset names sh qs l Hn Hq Hoff Hok).
Qed.

Lemma X9_sheet_entry_filed_witness :
  sheet_step defaults_without_columns (VDict sheet_without_key) ([], [], []) [] =
    (Ret ([VStr "Notes"],
          [("Notes", sheet_of sheet_without_key (Some defaults_without_columns) 0)],
          [("Notes", VStr "status=new")]),
     ["missing key in the config file (sheet: Notes)"]).
Proof.
  apply (X9_sheet_entry_filed defaults_without_columns sheet_without_key
           "Notes" (VStr "status=new") 0 [] [] [] []); reflexivity.
Defined.

(** X10: a sheet entry with a string NAME and no QUERY records "query is
    not set ... for the sheet" followed by the name, and the run stops at
    once: the entry is not resolved and later entries are not looked at. *)
Theorem X10_missing_query_aborts (sp : Sheet) (e : dict value) (n : string)
    (rest : list value) (t : sheet_tables) (l : errors) :
  dict_get e NAME = Some (VStr n) ->
  dict_get e QUERY = None ->
  sheets_loop sp (VDict e :: rest) t l =
    (Halt Aborted, (l ++ [(CONFIG_FILE_MISSING_QUERY ++ n)%string])%list).
Proof.
  intros Hn Hq. cbn [sheets_loop]. apply bind_Halt.
  unfold sheet_step. destruct t as [[names sh] qs].
  cbn [getitem]. rewrite Hn. unfold lift at 1 2. rewrite !bind_ret.
  apply bind_Halt. now apply get_config_absent.
Qed.

Lemma X10_missing_query_aborts_witness :
  sheets_loop defaults_without_columns
              [VDict sheet_without_query; VDict sheet_without_key] ([], [], []) [] =
    (Halt Aborted, ["query is not set in the config file for the sheet Notes"]).
Proof.
  apply (X10_missing_query_aborts defaults_without_columns sheet_without_query
           "Notes" [VDict sheet_without_key] ([], [], []) []); reflexivity.
Defined.

(** X11: a sheet entry whose NAME is present but is not a string (a number,
    say) stops the run on an uncaught [TypeError], raised when the name is
    appended to the message of the missing query; nothing is recorded. *)
Theorem X11_non_string_name_raises (sp : Sheet) (e : dict value) (v : value)
    (t : sheet_tables) (l : errors) :
  dict_get e NAME = Some v ->
  is_str v = false ->
  sheet_step sp (VDict e) t l = (Halt (Uncaught TypeError), l).
Proof.
  intros Hn Hv. unfold sheet_step. destruct t as [[names sh] qs].
  cbn [getitem]. rewrite Hn. unfold lift at 1 2. rewrite !bind_ret.
  destruct v; try reflexivity. discriminate.
Qed.

Lemma X11_non_string_name_raises_witness :
  sheet_step defaults_without_columns (VDict sheet_numbered) ([], [], []) [] =
    (Halt (Uncaught TypeError), []).
Proof.
  apply (X11_non_string_name_raises defaults_without_columns sheet_numbered
           (VInt 2024)); reflexivity.
Defined.

(** ** The spreadsheet part of the document *)

(** X12: when the spreadsheet id is a string and the defaults resolve, a
    document without SHEETS makes [config_gsheet] record "no sheet is set"
    and return with the sheet tables unset; the error then stops the run
    at the final check, so the document never resolves to a Config. *)
Theorem X12_missing_sheets_recorded (self : Config) (m : dict value)
    (sid : string) (offset : Z) (l : errors) :
  dict_get m SPREADSHEET_ID = Some (VStr sid) ->
  header_of m DEFAULT_HEADER_OFFSET = inr offset ->
  columns_ok m = true ->
  dict_get m SHEETS = None ->
  config_gsheet self (VDict m) l =
    (Ret (set_spreadsheet_id self (VStr sid)),
     (l ++ repeat CONFIG_FILE_MORE_KEYS (key_errors (declared_columns m) None)
        ++ [CONFIG_FILE_MISSING_SHEET])%list) /\
  (forall c l', resolve (VDict m) <> (Ret c, l')).
Proof.
  intros Hsid Hoff Hok Hsheets. split.
  - unfold config_gsheet.
    rewrite (bind_Ret _ _ _ _ _ (get_config_present m _ _ _ l Hsid)).
    cbn [is_str]. rewrite bind_ret.
    rewrite (bind_Ret _ _ _ _ _ (get_sheet_config_ok m None offset l Hoff Hok)).
    cbn [contains seed_key]. unfold dict_mem. rewrite Hsheets.
    unfold lift. rewrite bind_ret, bind_error. now rewrite app_assoc.
  - intros c l' H. apply resolve_Ret in H
      as (_ & _ & _ & _ & _ & sv & _ & _ & _ & _ & _ & _ & _ & Hsv & _).
    cbn in Hsv. now rewrite Hsheets in Hsv.
Qed.

Lemma X12_missing_sheets_recorded_witness :
  config_gsheet new_Config (VDict doc_without_sheets) [] =
    (Ret (set_spreadsheet_id new_Config (VStr "id")),
     [CONFIG_FILE_MISSING_SHEET]).
Proof.
  apply (proj1 (X12_missing_sheets_recorded new_Config doc_without_sheets
                  "id" 0 [] eq_refl eq_refl eq_refl eq_refl)).
Defined.

(** X13: an empty SHEETS sequence is not an error: when the spreadsheet id
    is a string and the defaults resolve, [config_gsheet] returns with
    three empty sheet tables and records nothing for the sheets. *)
Theorem X13_empty_sheets_accepted (self : Config) (m : dict value)
    (sid : string) (offset : Z) (l : errors) :
  dict_get m SPREADSHEET_ID = Some (VStr sid) ->
  header_of m DEFAULT_HEADER_OFFSET = inr offset ->
  columns_ok m = true ->
  dict_get m SHEETS = Some (VList []) ->
  config_gsheet self (VDict m) l =
    (Ret (set_sheets (set_spreadsheet_id self (VStr sid)) [] [] []),
     (l ++ repeat CONFIG_FILE_MORE_KEYS
             (key_errors (declared_columns m) None))%list).
Proof.
  intros Hsid Hoff Hok Hsheets. unfold config_gsheet.
  rewrite (bind_Ret _ _ _ _ _ (get_config_present m _ _ _ l Hsid)).
  cbn [is_str]. rewrite bind_ret.
  rewrite (bind_Ret _ _ _ _ _ (get_sheet_config_ok m None offset l Hoff Hok)).
  cbn [contains getitem seed_key]. unfold dict_mem. rewrite Hsheets.
  unfold lift. rewrite !bind_ret. cbn [iter]. rewrite bind_ret.
  reflexivity.
Qed.

Lemma X13_empty_sheets_accepted_witness :
  config_gsheet new_Config (VDict doc_empty_sheets) [] =
    (Ret (set_sheets (set_spreadsheet_id new_Config (VStr "id")) [] [] []), []).
Proof.
  apply (X13_empty_sheets_accepted new_Config doc_empty_sheets "id" 0 []);
    reflexivity.
Defined.

(** X14: a document without SPREADSHEET_ID makes [config_gsheet] record
    "spreadsheet_id is not set" and stop the run at once, before the type
    of the id is looked at and before any sheet is. *)
Theorem X14_missing_spreadsheet_id_aborts (self : Config) (m : dict value)
    (l : errors) :
  dict_get m SPREADSHEET_ID = None ->
  config_gsheet self (VDict m) l =
    (Halt Aborted, (l ++ [CONFIG_FILE_MISSING_SPREADSHEET])%list).
Proof.
  intros H. unfold config_gsheet. apply bind_Halt. now apply get_config_absent.
Qed.

Lemma X14_missing_spreadsheet_id_aborts_witness :
  config_gsheet new_Config (VDict doc_without_id) [] =
    (Halt Aborted, [CONFIG_FILE_MISSING_SPREADSHEET]).
Proof.
  apply (X14_missing_spreadsheet_id_aborts new_Config doc_without_id []).
  reflexivity.
Defined.

(** ** Exceptions of the sheet resolver *)




(** ** Settings that a sheet leaves out *)

(** X16: a setting that the sheet specification leaves out is taken from
    the parent, or, when the sheet is resolved without a parent, from the
    hard-coded defaults: header offset 0, delimiter one space, and false for
    both flags. *)
Theorem X16_absent_settings_inherited (m : dict value)
    (spreadsheet : option Sheet) (offset : Z) (l : errors) :
  header_of m (seed_offset spreadsheet) = inr offset ->
  columns_ok m = true ->
  exists sh l',
    get_sheet_config (VDict m) spreadsheet l = (Ret sh, l') /\
    (dict_get m HEADER_OFFSET = None ->
     header_offset sh = match spreadsheet with
                        | Some sp => header_offset sp
                        | None => 0
                        end) /\
    (dict_get m DELIMITER = None ->
     delimiter sh = match spreadsheet with
                    | Some sp => delimiter sp
                    | None => VStr " "
                    end) /\
    (dict_get m DEFAULT_COLUMNS = None ->
     default_columns sh = match spreadsheet with
                          | Some sp => default_columns sp
                          | None => VBool false
                          end) /\
    (dict_get m INHERIT_FORMULAS = None ->
     inherit_formulas sh = match spreadsheet with
                           | Some sp => inherit_formulas sp
                           | None => VBool false
                           end).
Proof.
  intros Hoff Hok. eexists. eexists. split.
  - exact (get_sheet_config_ok m spreadsheet offset l Hoff Hok).
  - unfold sheet_of.
    set (cols := columns_after _ _ _). set (k := key_after _ _).
    split; [| split; [| split]].
    + intros H. rewrite header_offset_finish.
      unfold header_of in Hoff. rewrite H in Hoff.
      injection Hoff as <-. now destruct spreadsheet.
    + intros H. unfold finish_sheet, pick. rewrite H.
      destruct spreadsheet; [| reflexivity]. now destruct (dict_empty cols).
    + intros H. unfold finish_sheet, pick. rewrite H.
      destruct spreadsheet; [| reflexivity]. now destruct (dict_empty cols).
    + intros H. unfold finish_sheet, pick. rewrite H.
      destruct spreadsheet; [| reflexivity]. now destruct (dict_empty cols).
Qed.

Lemma X16_absent_settings_inherited_witness :
  exists sh l',
    get_sheet_config (VDict sheet_own_columns) (Some defaults_with_columns) [] =
      (Ret sh, l') /\
    (dict_get sheet_own_columns HEADER_OFFSET = None -> header_offset sh = 0) /\
    (dict_get sheet_own_columns DELIMITER = None -> delimiter sh = VStr ",") /\
    (dict_get sheet_own_columns DEFAULT_COLUMNS = None ->
     default_columns sh = VBool false) /\
    (dict_get sheet_own_columns INHERIT_FORMULAS = None ->
     inherit_formulas sh = VBool false).
Proof.
  apply (X16_absent_settings_inherited sheet_own_columns
           (Some defaults_with_columns) 0 []); reflexivity.
Defined.

(** ** Fields of a structured column *)

(** X17: for a structured column whose SOURCE is a mapping, LINK and
    OPTIONAL of the source take precedence over those of the column, which
    are kept when the source has none; [data], [gets] and [condition] come
    from FROM, GET and CONDITION of the source alone, so a FROM, GET or
    CONDITION at the level of the column is never read. *)
Theorem X17_nested_source_precedence (key : option string) (column : string)
    (c s : dict value) (delimiter : value) (l : errors) :
  dict_get c SOURCE = Some (VDict s) ->
  exists k col l',
    get_column_config key column new_Column (VDict c) delimiter l =
      (Ret (k, col), l') /\
    link col = pick s LINK (pick c LINK VNone) /\
    optional col = pick s OPTIONAL (pick c OPTIONAL VNone) /\
    data col = pick s FROM VNone /\
    gets col = pick s GET VNone /\
    condition col = pick s CONDITION VNone.
Proof.
  intros Hsrc.
  assert (Hok : has_source (VDict c) = true)
    by (cbn; unfold dict_mem; now rewrite Hsrc).
  eexists. eexists. eexists. split.
  - exact (get_column_config_ok key column new_Column (VDict c) delimiter l Hok).
  - assert (Hp : pick c SOURCE VNone = VDict s)
      by (unfold pick; now rewrite Hsrc).
    unfold resolved_column. rewrite Hp. repeat split; reflexivity.
Qed.

Lemma X17_nested_source_precedence_witness :
  exists k col l',
    get_column_config None "Flags" new_Column (VDict column_two_levels)
                      (VStr ",") [] = (Ret (k, col), l') /\
    link col = VStr "https://inner/" /\
    optional col = VNone /\
    data col = VStr "flags" /\
    gets col = VStr "name" /\
    condition col = VNone.
Proof.
  apply (X17_nested_source_precedence None "Flags" column_two_levels
           [(FROM, VStr "flags"); (GET, VStr "name");
            (LINK, VStr "https://inner/")] (VStr ",") []).
  reflexivity.
Defined.

(** X18: the two scalar forms.  A column given as a scalar gets the scalar
    as [data] and nothing else: it cannot become the key, records nothing,
    and keeps the delimiter of a fresh Column, one space, whatever the
    delimiter of the sheet.  A structured column whose SOURCE is a scalar
    gets that scalar as [data], no [delimiter2], and its delimiter from its
    own DELIMITER or else from the sheet. *)
Theorem X18_scalar_forms (key : option string) (column : string)
    (delimiter : value) (l : errors) :
  (forall c_data,
     is_dict c_data = false ->
     get_column_config key column new_Column c_data delimiter l =
       (Ret (key, mkColumn c_data VNone VNone VNone VNone (VStr " ") None), l)) /\
  (forall c src,
     dict_get c SOURCE = Some src ->
     is_dict src = false ->
     exists k col l',
       get_column_config key column new_Column (VDict c) delimiter l =
         (Ret (k, col), l') /\
       data col = src /\ delimiter2 col = None /\
       col_delimiter col = pick c DELIMITER delimiter).
Proof.
  split.
  - intros c_data H. destruct c_data; try reflexivity. discriminate.
  - intros c src Hsrc Hd.
    assert (Hok : has_source (VDict c) = true)
      by (cbn; unfold dict_mem; now rewrite Hsrc).
    eexists. eexists. eexists. split.
    + exact (get_column_config_ok key column new_Column (VDict c) delimiter l Hok).
    + assert (Hp : pick c SOURCE VNone = src)
        by (unfold pick; now rewrite Hsrc).
      unfold resolved_column. rewrite Hp.
      destruct src; try discriminate; repeat split; reflexivity.
Qed.

Lemma X18_scalar_forms_witness :
  get_column_config None "Note" new_Column (VStr "n/a") (VStr ";") [] =
    (Ret (None, mkColumn (VStr "n/a") VNone VNone VNone VNone (VStr " ") None), []) /\
  exists k col l',
    get_column_config None "Bug" new_Column (column_from_field "id")
                      (VStr ";") [] = (Ret (k, col), l') /\
    data col = VStr "id" /\ delimiter2 col = None /\
    col_delimiter col = pick [(SOURCE, VStr "id")] DELIMITER (VStr ";").
Proof.
  split.
  - apply (proj1 (X18_scalar_forms None "Note" (VStr ";") [])). reflexivity.
  - apply (proj2 (X18_scalar_forms None "Bug" (VStr ";") [])
             [(SOURCE, VStr "id")] (VStr "id")); reflexivity.
Defined.

(** ** Keys and columns of a resolved sheet *)

Lemma columns_after_mem_mono (its : dict value) dl (cols : dict Column) c :
  dict_mem cols c = true -> dict_mem (columns_after its dl cols) c = true.
Proof.
  revert cols. induction its as [| [column c_data] rest IH]; intros cols H; cbn.
  - assumption.
  - apply IH. rewrite dict_mem_set, H. apply orb_true_r.
Qed.

Lemma columns_after_mem_declared (its : dict value) dl (cols : dict Column) c :
  In c (dict_keys its) -> dict_mem (columns_after its dl cols) c = true.
Proof.
  revert cols. induction its as [| [column c_data] rest IH]; intros cols H; cbn.
  - contradiction.
  - destruct H as [H | H].
    + cbn in H. subst. apply columns_after_mem_mono.
      now rewrite dict_mem_set, String.eqb_refl.
    + now apply IH.
Qed.

Lemma key_after_cases (its : dict value) (k : option string) :
  key_after its k = k \/
  exists c, key_after its k = Some c /\ In c (dict_keys its).
Proof.
  revert k. induction its as [| [column c_data] rest IH]; intros k.
  - now left.
  - cbn [key_after]. unfold next_key.
    destruct (IH (if marks_key c_data then Some column else k))
      as [H | (c & H & Hin)].
    + rewrite H. destruct (marks_key c_data); [| now left].
      right. exists column. split; [reflexivity | now left].
    + right. exists c. split; [assumption | now right].
Qed.

(** X19: the key of a resolved Sheet always names one of its columns,
    provided that holds of the parent: the key is either the parent's,
    whose column is seeded or reused, or a declared column, which the loop
    has just entered. *)
Theorem X19_key_names_a_column (m : dict value) (spreadsheet : option Sheet)
    (l : errors) (sh : Sheet) (l' : errors) :
  (forall sp, spreadsheet = Some sp -> key_in_columns sp) ->
  get_sheet_config (VDict m) spreadsheet l = (Ret sh, l') ->
  key_in_columns sh.
Proof.
  intros Hp H.
  destruct (get_sheet_config_returns _ _ _ _ _ H) as (offset & Hoff & Hok).
  rewrite (get_sheet_config_ok m spreadsheet offset l Hoff Hok) in H.
  injection H as <- _. unfold sheet_of, finish_sheet.
  set (its := declared_columns m).
  set (dl := pick m DELIMITER (seed_delimiter spreadsheet)).
  assert (Hgen : forall k,
    key_after its (seed_key spreadsheet) = Some k ->
    dict_mem (columns_after its dl (seed_map spreadsheet)) k = true).
  { intros k Hk.
    destruct (key_after_cases its (seed_key spreadsheet)) as [E | (c & E & Hin)].
    - rewrite E in Hk. destruct spreadsheet as [sp |]; [| discriminate].
      apply columns_after_mem_mono. cbn [seed_map seed_key] in *.
      unfold dict_mem. rewrite seed_columns_get.
      exact (Hp sp eq_refl k Hk).
    - rewrite E in Hk. injection Hk as <-.
      now apply columns_after_mem_declared. }
  destruct spreadsheet as [sp |].
  - destruct (dict_empty _); intros k Hk; cbn [key columns] in *.
    + exact (Hp sp eq_refl k Hk).
    + now apply Hgen.
  - intros k Hk. cbn [key columns] in *. now apply Hgen.
Qed.

Lemma X19_key_names_a_column_witness :
  key_in_columns defaults_with_columns.
Proof.
  apply (X19_key_names_a_column root_with_columns None [] defaults_with_columns []).
  - intros sp H. discriminate.
  - reflexivity.
Defined.



Lemma col_delimiter_source_column (col : Column) (src : value) :
  col_delimiter (source_column col src) = col_delimiter col.
Proof. now destruct src. Qed.

(** X21: in a resolved Sheet, a structured column declared by the sheet
    has the delimiter of its own DELIMITER field, or else the delimiter
    that the sheet resolved at that point: the DELIMITER of the sheet, or
    else the parent's (one space without a parent).  A column declared as
    a scalar has one space. *)
Theorem X21_column_delimiter (m its : dict value) (spreadsheet : option Sheet)
    (offset : Z) (l : errors) :
  dict_get m SHEET_COLUMNS = Some (VDict its) ->
  dict_wf its ->
  header_of m (seed_offset spreadsheet) = inr offset ->
  columns_ok m = true ->
  exists sh l',
    get_sheet_config (VDict m) spreadsheet l = (Ret sh, l') /\
    forall c c_data,
      dict_get its c = Some c_data ->
      exists col,
        dict_get (columns sh) c = Some col /\
        col_delimiter col =
          match c_data with
          | VDict cd =>
              pick cd DELIMITER (pick m DELIMITER (seed_delimiter spreadsheet))
          | _ => VStr " "
          end.
Proof.
  intros Hcols Hwf Hoff Hok. eexists. eexists. split.
  - exact (get_sheet_config_ok m spreadsheet offset l Hoff Hok).
  - intros c c_data Hc. unfold sheet_of.
    rewrite (declared_columns_eq m its Hcols).
    assert (Hne : its <> []) by (intros ->; discriminate).
    assert (Hcol : columns
      (finish_sheet spreadsheet offset
         (pick m DELIMITER (seed_delimiter spreadsheet))
         (pick m DEFAULT_COLUMNS (seed_default_columns spreadsheet))
         (pick m INHERIT_FORMULAS (seed_inherit_formulas spreadsheet))
         (columns_after its (pick m DELIMITER (seed_delimiter spreadsheet))
            (seed_map spreadsheet))
         (key_after its (seed_key spreadsheet))) =
      columns_after its (pick m DELIMITER (seed_delimiter spreadsheet))
        (seed_map spreadsheet)).
    { unfold finish_sheet. destruct spreadsheet; [| reflexivity].
      now rewrite (columns_after_declared its _ _ Hne). }
    rewrite Hcol, columns_after_get by assumption. rewrite Hc.
    eexists. split; [reflexivity |].
    destruct c_data; try reflexivity.
    unfold resolved_column. now rewrite col_delimiter_source_column.
Qed.

Lemma X21_column_delimiter_witness :
  exists sh l',
    get_sheet_config (VDict sheet_mixed_columns) (Some defaults_with_columns) [] =
      (Ret sh, l') /\
    forall c c_data,
      dict_get [("Tags", VDict [(SOURCE, VStr "keywords")]);
                ("CC", VDict [(DELIMITER, VStr "|"); (SOURCE, VStr "cc")]);
                ("Note", VStr "n/a")] c = Some c_data ->
      exists col,
        dict_get (columns sh) c = Some col /\
        col_delimiter col =
          match c_data with
          | VDict cd =>
              pick cd DELIMITER
                (pick sheet_mixed_columns DELIMITER
                   (seed_delimiter (Some defaults_with_columns)))
          | _ => VStr " "
          end.
Proof.
  apply (X21_column_delimiter sheet_mixed_columns
           [("Tags", VDict [(SOURCE, VStr "keywords")]);
            ("CC", VDict [(DELIMITER, VStr "|"); (SOURCE, VStr "cc")]);
            ("Note", VStr "n/a")]
           (Some defaults_with_columns) 0 []); try reflexivity.
  repeat constructor; cbn; intuition discriminate.
Defined.

(** ** Exactly which documents resolve *)








(** ** The dispatch on the source *)

(** X23: the branch of the constructor that records "input is unknown" is
    never taken: [get_input] returns BUGZILLA or JIRA or does not return,
    so on every document and from every list of errors the constructor
    does exactly what it would do with the two tracker branches alone. *)
Theorem X23_unknown_input_unreachable (config_data : value) (l : errors) :
  Config_init config_data l = Config_init_two_branches config_data l.
Proof.
  unfold Config_init, Config_init_two_branches.
  destruct (get_input config_data CONFIG_FILE_MISSING_INPUT l)
    as [[src | h] l0] eqn:E.
  - rewrite !(bind_Ret _ _ _ _ _ E).
    apply get_input_Ret in E as [_ [-> | ->]]; reflexivity.
  - now rewrite !(bind_Halt _ _ _ _ _ E).
Qed.

(** ** Defaults and sheets together *)

(** X24: spreadsheet defaults and a sheet compose.  When the root document
    resolves to the defaults and a sheet entry resolves under them, each
    setting that the entry leaves out is the one of the root document, and
    the hard-coded default when the root leaves it out too; an entry
    without SHEET_COLUMNS has the columns and the key of the defaults. *)
Theorem X24_root_settings_reach_sheets (m0 m : dict value) (sp sh : Sheet)
    (l0 l1 l2 : errors) :
  get_sheet_config (VDict m0) None l0 = (Ret sp, l1) ->
  get_sheet_config (VDict m) (Some sp) l1 = (Ret sh, l2) ->
  (dict_get m HEADER_OFFSET = None ->
   header_of m0 0 = inr (header_offset sh)) /\
  (dict_get m DELIMITER = None ->
   delimiter sh = pick m0 DELIMITER (VStr " ")) /\
  (dict_get m DEFAULT_COLUMNS = None ->
   default_columns sh = pick m0 DEFAULT_COLUMNS (VBool false)) /\
  (dict_get m INHERIT_FORMULAS = None ->
   inherit_formulas sh = pick m0 INHERIT_FORMULAS (VBool false)) /\
  (dict_get m SHEET_COLUMNS = None ->
   columns sh = columns sp /\ key sh = key sp).
Proof.
  intros H0 H.
  assert (Hwf : dict_wf (columns sp)).
  { apply (get_sheet_config_wf m0 None l0 sp l1); [| assumption].
    intros p Hp. discriminate. }
  destruct (get_sheet_config_returns _ _ _ _ _ H0) as (offset0 & Hoff0 & Hok0).
  rewrite (get_sheet_config_ok m0 None offset0 l0 Hoff0 Hok0) in H0.
  injection H0 as Hsp _.
  destruct (get_sheet_config_returns _ _ _ _ _ H) as (offset & Hoff & Hok).
  rewrite (get_sheet_config_ok m (Some sp) offset l1 Hoff Hok) in H.
  injection H as Hsh _.
  assert (Hsp_off : header_offset sp = offset0)
    by (now rewrite <- Hsp).
  assert (Hsp_dl : delimiter sp = pick m0 DELIMITER (VStr " "))
    by (now rewrite <- Hsp).
  assert (Hsp_dc : default_columns sp = pick m0 DEFAULT_COLUMNS (VBool false))
    by (now rewrite <- Hsp).
  assert (Hsp_if : inherit_formulas sp = pick m0 INHERIT_FORMULAS (VBool false))
    by (now rewrite <- Hsp).
  cbn [seed_offset] in Hoff, Hoff0.
  rewrite <- Hsh. clear Hsh.
  set (cols := columns_after (declared_columns m) _ _).
  set (k := key_after (declared_columns m) _).
  split; [| split; [| split; [| split]]].
  - intros E. unfold header_of in Hoff. rewrite E in Hoff.
    injection Hoff as Hoff.
    destruct (dict_empty cols); cbn [header_offset];
      rewrite <- Hoff, Hsp_off; exact Hoff0.
  - intros E. destruct (dict_empty cols); cbn [delimiter];
      [exact Hsp_dl | unfold pick at 1; rewrite E; exact Hsp_dl].
  - intros E. destruct (dict_empty cols); cbn [default_columns];
      unfold pick at 1; rewrite E; exact Hsp_dc.
  - intros E. destruct (dict_empty cols); cbn [inherit_formulas];
      unfold pick at 1; rewrite E; exact Hsp_if.
  - intros E. subst cols k. unfold declared_columns. rewrite E.
    cbn [columns_after key_after]. rewrite (seed_columns_wf _ Hwf).
    destruct (dict_empty (columns sp)); cbn [columns key]; now split.
Qed.

Lemma X24_root_settings_reach_sheets_witness :
  exists sp sh,
    get_sheet_config (VDict root_with_settings) None [] = (Ret sp, []) /\
    get_sheet_config (VDict sheet_bare) (Some sp) [] = (Ret sh, []) /\
    header_of root_with_settings 0 = inr (header_offset sh) /\
    delimiter sh = pick root_with_settings DELIMITER (VStr " ") /\
    default_columns sh = pick root_with_settings DEFAULT_COLUMNS (VBool false) /\
    inherit_formulas sh = pick root_with_settings INHERIT_FORMULAS (VBool false) /\
    columns sh = columns sp /\ key sh = key sp.
Proof.
  eexists. eexists.
  split; [lazy; reflexivity |]. split; [lazy; reflexivity |].
  pose proof (X24_root_settings_reach_sheets root_with_settings sheet_bare
                _ _ [] [] [] eq_refl eq_refl) as (H1 & H2 & H3 & H4 & H5).
  split; [exact (H1 eq_refl) |]. split; [exact (H2 eq_refl) |].
  split; [exact (H3 eq_refl) |]. split; [exact (H4 eq_refl) |].
  exact (H5 eq_refl).
Defined.

(** ** Sheet names used twice *)

Lemma dict_mem_In {A} (d : dict A) (k : string) :
  dict_mem d k = true -> In k (dict_keys d).
Proof.
  unfold dict_mem. induction d as [| [k' v] d IH]; cbn; [discriminate |].
  destruct (String.eqb k k') eqn:E.
  - apply String.eqb_eq in E. intros _. now left.
  - intros H. right. now apply IH.
Qed.

(** X25: sheet names are not checked for uniqueness.  An entry whose name
    is already filed replaces the Sheet and the query filed under that
    name, in place, while [sheets] lists the name once more: of two entries
    with one name only the later one is kept in [sheet] and [queries]. *)
Theorem X25_repeated_name_replaces (sp : Sheet) (e : dict value) (n : string)
    (q : value) (offset : Z) (names : list value) (sh : dict Sheet)
    (qs : dict value) (l : errors) :
  dict_get e NAME = Some (VStr n) ->
  dict_get e QUERY = Some q ->
  header_of e (header_offset sp) = inr offset ->
  columns_ok e = true ->
  dict_mem sh n = true ->
  dict_mem qs n = true ->
  exists sh' qs' l',
    sheet_step sp (VDict e) (names, sh, qs) l =
      (Ret ((names ++ [VStr n])%list, sh', qs'), l') /\
    dict_keys sh' = dict_keys sh /\ dict_keys qs' = dict_keys qs /\
    dict_get sh' n = Some (sheet_of e (Some sp) offset) /\
    dict_get qs' n = Some q.
Proof.
  intros Hn Hq Hoff Hok Hsh Hqs. eexists. eexists. eexists. split.
  - exact (sheet_step_ok sp e n q offset names sh qs l Hn Hq Hoff Hok).
  - repeat split.
    + apply dict_keys_set. now apply dict_mem_In.
    + apply dict_keys_set. now apply dict_mem_In.
    + rewrite dict_get_set. now rewrite String.eqb_refl.
    + rewrite dict_get_set. now rewrite String.eqb_refl.
Qed.

Lemma X25_repeated_name_replaces_witness :
  exists sh' qs' l',
    sheet_step defaults_with_columns (VDict sheet_bare_again)
      ([VStr "All"],
       [("All", sheet_of sheet_bare (Some defaults_with_columns) 0)],
       [("All", VStr "product=x")]) [] =
      (Ret ([VStr "All"; VStr "All"], sh', qs'), l') /\
    dict_keys sh' = ["All"] /\ dict_keys qs' = ["All"] /\
    dict_get sh' "All" =
      Some (sheet_of sheet_bare_again (Some defaults_with_columns) 3) /\
    dict_get qs' "All" = Some (VStr "product=y").
Proof.
  apply (X25_repeated_name_replaces defaults_with_columns sheet_bare_again
           "All" (VStr "product=y") 3 [VStr "All"]
           [("All", sheet_of sheet_bare (Some defaults_with_columns) 0)]
           [("All", VStr "product=x")] []); reflexivity.
Defined.
